(** * TaskFlow server: task routes and the user-log ledger

    A shallow embedding of the server-side code that owns state:

    - the router of [/api/tasks]: the [PUT /api/tasks/:id],
      [PATCH /api/tasks/:id/status] and [PATCH /api/tasks/:id/progress]
      handlers;
    - [models/UserLog.js]: the statics [createLogoutLog] and
      [markTokenExpired];
    - [routes/userLogRoutes.js]: the paginated [GET /api/admin/user-logs]
      and the bulk [DELETE /api/admin/user-logs].

    A MongoDB collection is a finite map from [_id] to document; a handler
    is a function from the collection and the request to a reply and the
    new collection.  Dates are integers (milliseconds since the epoch). *)

From Stdlib Require Import ZArith QArith Qround Lia.
From stdpp Require Import gmap strings list fin_maps pretty.

(** ** JavaScript values and numeric built-ins *)

Module Js.

(** The JSON scalars a request body can carry in a numeric position.
    Numbers are the finite rationals: every comparison and every
    [Math.min]/[Math.max] below is exact on them.  Strings are left out
    (their [ToNumber] needs a parser for numeric literals). *)
Inductive value : Type :=
| undefined
| null
| boolean (b : bool)
| number (q : Q).

(** [ToNumber]; [None] stands for [NaN]. *)
Definition ToNumber (v : value) : option Q :=
  match v with
  | undefined => None
  | null => Some 0%Q
  | boolean b => Some (if b then 1%Q else 0%Q)
  | number q => Some q
  end.

Definition is_undefined (v : value) : bool :=
  match v with undefined => true | _ => false end.

(** [a < b] on numbers; a comparison with [NaN] is false. *)
Definition ltb (a b : option Q) : bool :=
  match a, b with
  | Some x, Some y => negb (Qle_bool y x)
  | _, _ => false
  end.

(** [a > b] is [b < a]. *)
Definition gtb (a b : option Q) : bool := ltb b a.

(** [a === b] on numbers. *)
Definition eqb (a b : option Q) : bool :=
  match a, b with
  | Some x, Some y => Qeq_bool x y
  | _, _ => false
  end.

Definition Math_max (a b : option Q) : option Q :=
  match a, b with
  | Some x, Some y => Some (if Qle_bool x y then y else x)
  | _, _ => None
  end.

Definition Math_min (a b : option Q) : option Q :=
  match a, b with
  | Some x, Some y => Some (if Qle_bool x y then x else y)
  | _, _ => None
  end.

(** [Math.round]: the nearest integer, halves towards +infinity. *)
Definition Math_round (x : Q) : Z := Qfloor (x + (1 # 2)).

(** [Math.ceil] *)
Definition Math_ceil (x : Q) : Z := Qceiling x.

End Js.

(** ** Replies

    Every handler answers [res.json] with [success: true] and a payload,
    or [res.status(code).json] with [success: false] and a message. *)

Inductive reply (A : Type) : Type :=
| ok (data : A)
| fail (code : Z) (message : string).
Arguments ok {A} data.
Arguments fail {A} code message.

(** ** Tasks (the router of /api/tasks) *)

Module Task.

(** The two status values and three priorities the routes use
    (the [includes] lists of [GET /api/tasks]). *)
Inductive Status : Type := incomplete | complete.
Inductive Priority : Type := low | medium | high.

#[global] Instance Status_eq_dec : EqDecision Status.
Proof. solve_decision. Defined.
#[global] Instance Priority_eq_dec : EqDecision Priority.
Proof. solve_decision. Defined.

(** A task document, with the fields the routes read and write.  The
    collection key is the document's [_id]. *)
Record t : Type := mk {
  userId : string;
  title : string;
  description : string;
  status : Status;
  priority : Priority;
  dueDate : option Z;
  progress : Q
}.

(** The body of [PUT /api/tasks/:id]; [None] is an absent field.  A
    supplied [dueDate] is either falsy ([Some None]) or a date string,
    given by the time [new Date] reads from it. *)
Record putBody : Type := mkPut {
  b_title : option string;
  b_description : option string;
  b_status : option Status;
  b_priority : option Priority;
  b_dueDate : option (option Z);
  b_progress : Js.value
}.

Section Routes.

(** The Task schema (models/Task.js) is not among the sources: its
    validators, run by [save], are a parameter. *)
Variable schemaValid : t -> bool.

(** [String.prototype.trim] *)
Variable trim : string -> string.

(** [Task.findOne({ _id: id, userId: uid })], for an [id] that casts to
    an ObjectId (the keys of the collection are the ObjectIds).  A
    request string that does not cast makes the query throw; the routes
    with that case are in [Cast] below. *)
Definition findOne (db : gmap string t) (id uid : string) : option t :=
  match db !! id with
  | Some task => if bool_decide (userId task = uid) then Some task else None
  | None => None
  end.

(** [task.save()] inside the handler's [try]: a rejected document makes
    the [catch] answer 500 with [failure] and nothing is written. *)
Definition save (db : gmap string t) (id : string) (task : t)
    (failure : string) : reply t * gmap string t :=
  if schemaValid task
  then (ok task, <[id := task]> db)
  else (fail 500 failure, db).

Definition with_status (task : t) (s : Status) : t :=
  mk (userId task) (title task) (description task) s
     (priority task) (dueDate task) (progress task).

Definition with_progress (task : t) (p : Q) : t :=
  mk (userId task) (title task) (description task) (status task)
     (priority task) (dueDate task) p.

(** [router.patch('/:id/progress', ...)] *)
Definition patchProgress (db : gmap string t) (id uid : string)
    (progress : Js.value) : reply t * gmap string t :=
  if Js.is_undefined progress
     || Js.ltb (Js.ToNumber progress) (Some 0%Q)
     || Js.gtb (Js.ToNumber progress) (Some 100%Q)
  then (fail 400 "Progress must be between 0 and 100", db)
  else
    match findOne db id uid with
    | None => (fail 404 "Task not found", db)
    | Some task =>
      match Js.Math_min (Js.Math_max (Js.ToNumber progress) (Some 0%Q))
                        (Some 100%Q) with
      | None => (fail 500 "Failed to update progress", db)
      | Some p =>
        let task := with_progress task p in
        let task :=
          if Js.eqb (Some (Task.progress task)) (Some 100%Q)
          then with_status task complete
          else if Js.gtb (Some (Task.progress task)) (Some 0%Q)
                  && bool_decide (status task = complete)
               then with_status task incomplete
               else task in
        save db id task "Failed to update progress"
      end
    end.

(** [router.patch('/:id/status', ...)] *)
Definition patchStatus (db : gmap string t) (id uid : string)
    : reply t * gmap string t :=
  match findOne db id uid with
  | None => (fail 404 "Task not found", db)
  | Some task =>
    let task :=
      with_status task
        (if bool_decide (status task = complete)
         then incomplete else complete) in
    save db id task "Failed to update task status"
  end.

(** [router.put('/:id', ...)]: each supplied field is assigned in
    turn; [progress] is clamped into [0, 100]. *)
Definition put (db : gmap string t) (id uid : string) (body : putBody)
    : reply t * gmap string t :=
  match findOne db id uid with
  | None => (fail 404 "Task not found", db)
  | Some task =>
    let title' :=
      match b_title body with Some x => trim x | None => title task end in
    let description' :=
      match b_description body with
      | Some x => trim x | None => description task end in
    let status' := default (status task) (b_status body) in
    let priority' := default (priority task) (b_priority body) in
    let dueDate' := default (dueDate task) (b_dueDate body) in
    if Js.is_undefined (b_progress body)
    then save db id
           (mk (userId task) title' description' status' priority'
               dueDate' (progress task))
           "Failed to update task"
    else
      match Js.Math_min
              (Js.Math_max (Js.ToNumber (b_progress body)) (Some 0%Q))
              (Some 100%Q) with
      | None => (fail 500 "Failed to update task", db)
      | Some p =>
        save db id
          (mk (userId task) title' description' status' priority'
              dueDate' p)
          "Failed to update task"
      end
  end.

End Routes.

End Task.

(** ** The user-log ledger (models/UserLog.js) *)

Module UserLog.

Inductive Role : Type := user | admin.
Inductive Action : Type := login | logout | token_refresh | failed_login.
Inductive Status : Type := active | expired | logged_out.

#[global] Instance Role_eq_dec : EqDecision Role.
Proof. solve_decision. Defined.
#[global] Instance Action_eq_dec : EqDecision Action.
Proof. solve_decision. Defined.
#[global] Instance Status_eq_dec : EqDecision Status.
Proof. solve_decision. Defined.

(** [userLogSchema]; [updatedAt] comes from [timestamps: true].  The
    collection key is the document's [_id]. *)
Record t : Type := mk {
  userId : string;
  userName : string;
  email : string;
  role : Role;
  action : Action;
  loginTime : option Z;
  logoutTime : option Z;
  jwtTokenId : option string;
  ipAddress : option string;
  userAgent : option string;
  sessionDuration : option Z;
  status : Status;
  createdAt : Z;
  updatedAt : Z
}.

(** The filter of [createLogoutLog]:
    [{ userId, jwtTokenId, action: 'login', status: 'active' }] *)
Definition isOpenLogin (uid tok : string) (e : t) : bool :=
  bool_decide (userId e = uid)
  && bool_decide (jwtTokenId e = Some tok)
  && bool_decide (action e = login)
  && bool_decide (status e = active).

(** The filter of [markTokenExpired]:
    [{ jwtTokenId, status: 'active' }] *)
Definition isActiveToken (tok : string) (e : t) : bool :=
  bool_decide (jwtTokenId e = Some tok)
  && bool_decide (status e = active).

(** One step of [sort({ createdAt: -1 })] followed by taking the head:
    keep the later of two documents (the one already held on a tie). *)
Definition later (kv : string * t) (best : option (string * t))
    : option (string * t) :=
  match best with
  | None => Some kv
  | Some b => if (createdAt b.2 <? createdAt kv.2)%Z then Some kv else Some b
  end.

(** [this.findOne(filter).sort({ createdAt: -1 })] *)
Definition findLatest (P : t -> bool) (db : gmap string t)
    : option (string * t) :=
  foldr later None (filter (λ kv, P kv.2 = true) (map_to_list db)).

(** The three assignments of [createLogoutLog] and the [updatedAt]
    stamp of [save]. *)
Definition close (e : t) (logoutAt duration savedAt : Z) : t :=
  mk (userId e) (userName e) (email e) (role e) (action e)
     (loginTime e) (Some logoutAt) (jwtTokenId e) (ipAddress e)
     (userAgent e) (Some duration) logged_out (createdAt e) savedAt.

(** [Math.round((logoutTime - loginLog.loginTime) / 60000)]; a [null]
    login time converts to 0 in the subtraction. *)
Definition minutesBetween (loginAt : option Z) (logoutAt : Z) : Z :=
  Js.Math_round (inject_Z (logoutAt - default 0%Z loginAt) / 60000).

(** [userLogSchema.statics.createLogoutLog]; [now] is the clock at
    [new Date()], [savedAt] the clock when [save] stamps [updatedAt].
    The stored document was accepted by the schema when it was created
    and the assigned values are of the declared types, so [save] writes
    it. *)
Definition createLogoutLog (db : gmap string t) (now savedAt : Z)
    (uid tok : string) : option t * gmap string t :=
  match findLatest (isOpenLogin uid tok) db with
  | Some (id, loginLog) =>
    let logoutTime := now in
    let sessionDuration := minutesBetween (loginTime loginLog) logoutTime in
    let loginLog := close loginLog logoutTime sessionDuration savedAt in
    (Some loginLog, <[id := loginLog]> db)
  | None => (None, db)
  end.

(** The update [{ status: 'expired' }] and the [updatedAt] stamp. *)
Definition expire (e : t) (now : Z) : t :=
  mk (userId e) (userName e) (email e) (role e) (action e)
     (loginTime e) (logoutTime e) (jwtTokenId e) (ipAddress e)
     (userAgent e) (sessionDuration e) expired (createdAt e) now.

(** [userLogSchema.statics.markTokenExpired]: [updateMany]; the result
    carries the number of documents changed. *)
Definition markTokenExpired (db : gmap string t) (now : Z) (tok : string)
    : nat * gmap string t :=
  (size (filter (λ kv, isActiveToken tok kv.2 = true) db),
   (λ e, if isActiveToken tok e then expire e now else e) <$> db).

End UserLog.

(** ** Admin routes over the ledger (routes/userLogRoutes.js) *)

Module UserLogRoutes.

Import UserLog.

Definition actionName (a : Action) : string :=
  match a with
  | login => "login"
  | logout => "logout"
  | token_refresh => "token_refresh"
  | failed_login => "failed_login"
  end.

Definition roleName (r : Role) : string :=
  match r with user => "user" | admin => "admin" end.

(** The filter fields of a request: [req.query] of the listing,
    [req.body.filters] of the bulk delete.  [None] is an absent field;
    a date is given by the time [new Date] reads from the string. *)
Record filters : Type := mkFilters {
  f_action : option string;
  f_role : option string;
  f_email : option string;
  f_startDate : option Z;
  f_endDate : option Z
}.

(** The MongoDB filter the handlers build: a field is [None] when the
    key is not set on the object. *)
Record query : Type := mkQuery {
  q_id : option (list string);
  q_action : option string;
  q_role : option string;
  q_email : option string;
  q_createdAt : option (option Z * option Z)
}.

(** [let query = {}] *)
Definition emptyQuery : query := mkQuery None None None None None.

(** Truthiness of an optional string: absent and empty are falsy. *)
Definition truthy (s : option string) : option string :=
  match s with
  | Some x => if bool_decide (x = "") then None else Some x
  | None => None
  end.

(** The chain of [if (f.x) q.x = ...] both handlers run. *)
Definition buildQuery (f : filters) : query :=
  mkQuery None
    (truthy (f_action f))
    (truthy (f_role f))
    (truthy (f_email f))
    (match f_startDate f, f_endDate f with
     | None, None => None
     | lo, hi => Some (lo, hi)
     end).

(** [parseInt(...)] of the listing's [page] and [limit] is taken as done:
    the handler is given the integer read. *)
Record listing : Type := mkListing {
  l_page : option Z;
  l_limit : option Z;
  l_filters : filters;
  l_sortBy : option string;
  l_sortOrder : option string
}.

Record pagination : Type := mkPagination {
  currentPage : Z;
  totalPages : Z;
  totalCount : Z;
  limit : Z;
  hasNextPage : bool;
  hasPrevPage : bool
}.

Section Store.

(** MongoDB's case-insensitive [$regex] test: pattern, then subject. *)
Variable regexTest : string -> string -> bool.

(** MongoDB's [sort]: field name, descending?, documents. *)
Variable sortDocs :
  string -> bool -> list (string * t) -> list (string * t).

Definition inRange (r : option Z * option Z) (x : Z) : bool :=
  match r.1 with Some lo => (lo <=? x)%Z | None => true end
  && match r.2 with Some hi => (x <=? hi)%Z | None => true end.

Definition matches (q : query) (kv : string * t) : bool :=
  match q_id q with Some l => bool_decide (kv.1 ∈ l) | None => true end
  && match q_action q with
     | Some a => bool_decide (actionName (action kv.2) = a)
     | None => true end
  && match q_role q with
     | Some r => bool_decide (roleName (role kv.2) = r)
     | None => true end
  && match q_email q with
     | Some p => regexTest p (email kv.2)
     | None => true end
  && match q_createdAt q with
     | Some r => inRange r (createdAt kv.2)
     | None => true end.

(** [UserLog.find(query)] as a list of documents with their ids *)
Definition find (db : gmap string t) (q : query) : list (string * t) :=
  filter (λ kv, matches q kv = true) (map_to_list db).

(** [UserLog.countDocuments(query)] *)
Definition countDocuments (db : gmap string t) (q : query) : Z :=
  Z.of_nat (length (find db q)).

(** [UserLog.deleteMany(query)]: the count removed and what is left,
    for a query whose ids have cast to ObjectIds ([Cast.deleteLogs]
    has the request whose ids do not). *)
Definition deleteMany (db : gmap string t) (q : query)
    : nat * gmap string t :=
  (length (find db q), filter (λ kv, matches q kv = false) db).

(** [router.get('/', ...)].  The handler is modelled for a page and a
    limit of at least 1; below that the outcome is decided by the
    store (a negative skip, a limit of 0) and by non-finite numbers,
    which are outside the sources: [None].  [populate], a join with the
    users collection on each returned document, is left out. *)
Definition getLogs (db : gmap string t) (req : listing)
    : option (reply (list (string * t) * pagination)) :=
  let query := buildQuery (l_filters req) in
  let pageNum := default 1%Z (l_page req) in
  let limitNum := default 20%Z (l_limit req) in
  let skip := ((pageNum - 1) * limitNum)%Z in
  let sortBy := default "createdAt" (l_sortBy req) in
  let desc := bool_decide (default "desc" (l_sortOrder req) = "desc") in
  if (pageNum <? 1)%Z || (limitNum <? 1)%Z
  then None
  else
    let logs :=
      take (Z.to_nat limitNum)
           (drop (Z.to_nat skip) (sortDocs sortBy desc (find db query))) in
    let totalCount := countDocuments db query in
    let totalPages :=
      Js.Math_ceil (inject_Z totalCount / inject_Z limitNum) in
    let hasNextPage := (pageNum <? totalPages)%Z in
    let hasPrevPage := (1 <? pageNum)%Z in
    Some (ok (logs,
              mkPagination pageNum totalPages totalCount limitNum
                           hasNextPage hasPrevPage)).

(** The body of the bulk delete.  [ids] is [Some l] when it is an
    array.  [filters] is [None] when it is falsy (absent, [null],
    [false], [0], the empty string) and [Some f] when it is truthy: an
    object with its fields, or any other truthy value such as [true],
    on which each of the five fields reads [undefined] ([f] has them
    all [None]). *)
Record deleteBody : Type := mkDelete {
  d_ids : option (list string);
  d_filters : option filters
}.

(** [ids && Array.isArray(ids) && ids.length > 0] *)
Definition idsGiven (ids : option (list string)) : bool :=
  match ids with
  | Some l => (0 <? length l)%nat
  | None => false
  end.

(** [router.delete('/', ...)]: the reply carries [deletedCount]. *)
Definition deleteLogs (db : gmap string t) (body : deleteBody)
    : reply nat * gmap string t :=
  if idsGiven (d_ids body)
  then
    let r := deleteMany db
               (mkQuery (d_ids body) None None None None) in
    (ok r.1, r.2)
  else
    match d_filters body with
    | Some f =>
      let r := deleteMany db (buildQuery f) in
      (ok r.1, r.2)
    | None =>
      (fail 400 "Either ids array or filters object is required", db)
    end.

End Store.

End UserLogRoutes.

(** ** Instances of the parameters and sample collections

    Concrete validators, built-ins and store operations on which the
    handlers run by computation, and the small collections used in the
    worked examples. *)

Module Instances.

(** A schema without validators: [save] always writes. *)
Definition anySchema (task : Task.t) : bool := true.

Definition isInteger (q : Q) : bool := (Qnum q mod Zpos (Qden q) =? 0)%Z.

(** Modelled from the spec: the Task schema (models/Task.js) is not
    among the sources; the data model gives "[progress] — integer in
    [0,100]". *)
Definition specSchema (task : Task.t) : bool :=
  Qle_bool 0 (Task.progress task)
  && Qle_bool (Task.progress task) 100
  && isInteger (Task.progress task).

(** [Math.min(Math.max(q, 0), 100)] written as a case split. *)
Definition clamped (q : Q) : Q :=
  if Qle_bool q 0 then 0%Q else if Qle_bool q 100 then q else 100%Q.

(** [trim] on ASCII white space. *)
Fixpoint trimStart (s : string) : string :=
  match s with
  | String a s' => if Ascii.is_space a then trimStart s' else s
  | EmptyString => EmptyString
  end.

Definition trim (s : string) : string :=
  String.rev (trimStart (String.rev (trimStart s))).

(** A store sort for the listing's default field: insertion sort on
    [createdAt], stable; other field names leave the order alone. *)
Definition before (desc : bool) (a b : string * UserLog.t) : bool :=
  if desc
  then (UserLog.createdAt b.2 <=? UserLog.createdAt a.2)%Z
  else (UserLog.createdAt a.2 <=? UserLog.createdAt b.2)%Z.

Fixpoint insertDoc (desc : bool) (x : string * UserLog.t)
    (l : list (string * UserLog.t)) : list (string * UserLog.t) :=
  match l with
  | [] => [x]
  | y :: l' =>
    if before desc x y then x :: y :: l' else y :: insertDoc desc x l'
  end.

Definition sortDocs (field : string) (desc : bool)
    (l : list (string * UserLog.t)) : list (string * UserLog.t) :=
  if bool_decide (field = "createdAt")
  then foldr (insertDoc desc) [] l
  else l.

(** A [$regex] test for patterns without metacharacters: the pattern
    occurs in the subject, letter case ignored. *)
Definition lower (a : Ascii.ascii) : Ascii.ascii :=
  let n := Ascii.nat_of_ascii a in
  if (65 <=? n)%nat && (n <=? 90)%nat then Ascii.ascii_of_nat (n + 32) else a.

Fixpoint startsWith (p s : string) : bool :=
  match p, s with
  | EmptyString, _ => true
  | String a p', String b s' =>
    bool_decide (lower a = lower b) && startsWith p' s'
  | String _ _, EmptyString => false
  end.

Fixpoint regexTest (p s : string) : bool :=
  startsWith p s
  || match s with
     | String _ s' => regexTest p s'
     | EmptyString => false
     end.

(** *** Tasks *)

Definition report (s : Task.Status) (p : Q) : Task.t :=
  Task.mk "u1" "Report" "Quarterly report" s Task.medium None p.

Definition tasks (s : Task.Status) (p : Q) : gmap string Task.t :=
  {[ "t1" := report s p ]}.

(** The body [{ progress: p }] of a [PUT]. *)
Definition onlyProgress (p : Q) : Task.putBody :=
  Task.mkPut None None None None None (Js.number p).

(** *** Ledger entries *)

(** A login of [uid] under token [tok], created (and logged in) at
    [at_]. *)
Definition loginOf (uid tok : string) (at_ : Z) (s : UserLog.Status)
    : UserLog.t :=
  UserLog.mk uid uid (uid +:+ "@example.com") UserLog.user UserLog.login
             (Some at_) None (Some tok) None None None s at_ at_.

(** Subject [u1] logged in on two devices: token [c1] at time 1000,
    token [c2] at time 2000. *)
Definition twoDevices : gmap string UserLog.t :=
  {[ "e1" := loginOf "u1" "c1" 1000 UserLog.active;
     "e2" := loginOf "u1" "c2" 2000 UserLog.active ]}.

(** [n] entries with ids ["0"], ["1"], ... created at times 0, 1, ... *)
Definition ledgerOf (n : nat) : gmap string UserLog.t :=
  list_to_map
    (map (λ i : nat, (pretty i, loginOf "u1" (pretty i) (Z.of_nat i)
                                        UserLog.active))
         (seq 0 n)).

(** The [c1] entry of [twoDevices] after a logout at time 61000
    (61 seconds after the login), saved at 61001. *)
Definition c1Closed : UserLog.t :=
  UserLog.close (loginOf "u1" "c1" 1000 UserLog.active) 61000 1 61001.

(** A login stamped two minutes ahead of the clock that later reads 0. *)
Definition skewed : gmap string UserLog.t :=
  {[ "e1" := loginOf "u1" "c1" 120000 UserLog.active ]}.

Definition noFilters : UserLogRoutes.filters :=
  UserLogRoutes.mkFilters None None None None None.

End Instances.

(** ** The other task routes (the router of /api/tasks) *)

Module TaskCrud.

Import Task.

Definition statusName (s : Status) : string :=
match s with incomplete => "incomplete" | complete => "complete" end.

Definition priorityName (p : Priority) : string :=
match p with low => "low" | medium => "medium" | high => "high" end.

(** Truthiness of a JSON scalar. *)
Definition isTruthy (v : Js.value) : bool :=
match v with
| Js.undefined | Js.null => false
| Js.boolean b => b
| Js.number q => negb (Qeq_bool q 0)
end.

(** Truthiness of an optional string: absent and empty are falsy. *)
Definition given (s : option string) : bool :=
match s with
| Some x => negb (bool_decide (x = ""))
| None => false
end.

(** [req.query] of the listing. *)
Record listQuery : Type := mkListQuery {
  lq_status : option string;
  lq_search : option string;
  lq_priority : option string
}.

(** The filter the listing builds; [userId] is always set. *)
Record taskQuery : Type := mkTaskQuery {
  tq_userId : string;
  tq_status : option string;
  tq_priority : option string;
  tq_search : option string
}.

Record counts : Type := mkCounts {
  c_all : nat;
  c_complete : nat;
  c_incomplete : nat
}.

Record taskList : Type := mkTaskList {
  tl_data : list (string * t);
  tl_counts : counts;
  tl_total : nat
}.

(** The body of [POST /api/tasks]; a supplied [dueDate] is given by the
    time [new Date] reads from it. *)
Record postBody : Type := mkPost {
  p_title : option string;
  p_description : option string;
  p_priority : option Priority;
  p_dueDate : option Z;
  p_progress : Js.value
}.

Record summary : Type := mkSummary {
  s_total : nat;
  s_completed : nat;
  s_incomplete : nat;
  s_highPriority : nat;
  s_mediumPriority : nat;
  s_lowPriority : nat
}.

Section Routes.

(** The Task schema (models/Task.js) is not among the sources: its
    validators and its default status are parameters. *)
Variable schemaValid : t -> bool.
Variable defaultStatus : Status.

(** [String.prototype.trim] *)
Variable trim : string -> string.

(** MongoDB's case-insensitive [$regex] test: pattern, then subject. *)
Variable regexTest : string -> string -> bool.

(** MongoDB's [sort({ createdAt: -1 })] on tasks. *)
Variable sortTasks : list (string * t) -> list (string * t).

(** The [_id] MongoDB gives a new document. *)
Variable freshId : gmap string t -> string.

(** [mongoose.Types.ObjectId(userId)], called without [new]: whether
    the call returns the ObjectId of the string (it throws on a string
    that is not an id, and on every string where [ObjectId] is a class
    that needs [new]). *)
Variable objectIdCall : string -> bool.

(** The query of [router.get('/', ...)]: a status or priority outside
    the two lists is not made a filter. *)
Definition buildTaskQuery (uid : string) (q : listQuery) : taskQuery :=
  mkTaskQuery uid
    (match lq_status q with
     | Some s =>
       if given (Some s) && bool_decide (s ∈ ["complete"; "incomplete"])
       then Some s else None
     | None => None
     end)
    (match lq_priority q with
     | Some p =>
       if given (Some p) && bool_decide (p ∈ ["low"; "medium"; "high"])
       then Some p else None
     | None => None
     end)
    (if given (lq_search q) then lq_search q else None).

Definition matchesTask (q : taskQuery) (kv : string * t) : bool :=
  bool_decide (userId kv.2 = tq_userId q)
  && match tq_status q with
     | Some s => bool_decide (statusName (status kv.2) = s)
     | None => true end
  && match tq_priority q with
     | Some p => bool_decide (priorityName (priority kv.2) = p)
     | None => true end
  && match tq_search q with
     | Some p => regexTest p (title kv.2) || regexTest p (description kv.2)
     | None => true end.

(** [Task.find(query)] *)
Definition findTasks (db : gmap string t) (q : taskQuery)
    : list (string * t) :=
  filter (λ kv, matchesTask q kv = true) (map_to_list db).

(** [router.get('/', ...)] *)
Definition getTasks (db : gmap string t) (uid : string) (q : listQuery)
    : reply taskList :=
  let tasks := sortTasks (findTasks db (buildTaskQuery uid q)) in
  let allTasks := findTasks db (mkTaskQuery uid None None None) in
  let counts :=
    mkCounts
      (length allTasks)
      (length (filter (λ kv, status kv.2 = complete) allTasks))
      (length (filter (λ kv, status kv.2 = incomplete) allTasks)) in
  ok (mkTaskList tasks counts (length tasks)).

(** [router.get('/:id', ...)] *)
Definition getTask (db : gmap string t) (id uid : string) : reply t :=
  match findOne db id uid with
  | None => fail 404 "Task not found"
  | Some task => ok task
  end.

(** [router.post('/', ...)]: the reply carries the new [_id] with the
    saved task.  [progress || 0] is cast by the schema's Number path. *)
Definition postTask (db : gmap string t) (uid : string) (body : postBody)
    : reply (string * t) * gmap string t :=
  if negb (given (p_title body)) || negb (given (p_description body))
  then (fail 400 "Title and description are required", db)
  else
    let progress :=
      if isTruthy (p_progress body) then p_progress body
      else Js.number 0 in
    match Js.ToNumber progress with
    | None => (fail 500 "Failed to create task", db)
    | Some p =>
      let task :=
        mk uid
           (trim (default "" (p_title body)))
           (trim (default "" (p_description body)))
           defaultStatus
           (default medium (p_priority body))
           (p_dueDate body)
           p in
      if schemaValid task
      then (ok (freshId db, task), <[freshId db := task]> db)
      else (fail 500 "Failed to create task", db)
    end.

(** [router.delete('/:id', ...)]: [findOneAndDelete] *)
Definition deleteTask (db : gmap string t) (id uid : string)
    : reply t * gmap string t :=
  match findOne db id uid with
  | None => (fail 404 "Task not found", db)
  | Some task => (ok task, delete id db)
  end.

Definition countIf (P : t -> bool) (l : list (string * t)) : nat :=
  length (filter (λ kv, P kv.2 = true) l).

(** [router.get('/stats/summary', ...)]: when the call of [ObjectId]
    throws, the [catch] answers 500; otherwise one group over the
    user's tasks, or the zero record when the aggregate returns no
    group. *)
Definition statsSummary (db : gmap string t) (uid : string) : reply summary :=
  if negb (objectIdCall uid)
  then fail 500 "Failed to retrieve task statistics"
  else
    let docs := findTasks db (mkTaskQuery uid None None None) in
    match docs with
    | [] => ok (mkSummary 0 0 0 0 0 0)
    | _ :: _ =>
      ok (mkSummary
            (length docs)
            (countIf (λ x, bool_decide (status x = complete)) docs)
            (countIf (λ x, bool_decide (status x = incomplete)) docs)
            (countIf (λ x, bool_decide (priorityName (priority x) = "high"))
               docs)
            (countIf (λ x, bool_decide (priorityName (priority x) = "medium"))
               docs)
            (countIf (λ x, bool_decide (priorityName (priority x) = "low"))
               docs))
    end.

End Routes.

End TaskCrud.

(** ** Recording a login (models/UserLog.js) *)

Module LedgerLogin.

Import UserLog.

(** The [userData] argument of [createLoginLog]. *)
Record userData : Type := mkUserData {
  ud_userId : string;
  ud_fullName : option string;
  ud_email : string;
  ud_role : Role
}.

(** [s.split('@')[0]]: what comes before the first [@] (character 64). *)
Fixpoint beforeAt (s : string) : string :=
match s with
| EmptyString => EmptyString
| String a s' =>
  if bool_decide (a = Ascii.ascii_of_nat 64) then EmptyString
  else String a (beforeAt s')
end.

(** A call either returns or throws the schema's validation messages. *)
Inductive outcome (A : Type) : Type :=
| returned (a : A)
| thrown (messages : list string).
Arguments returned {A} a.
Arguments thrown {A} messages.

Section Create.

(** [String.prototype.trim], applied by the schema's [trim: true]. *)
Variable trim : string -> string.

(** The [_id] MongoDB gives a new document. *)
Variable freshId : gmap string t -> string.

(** The [required] validators of [userLogSchema] that a string can
    fail, in schema order. *)
Definition requiredErrors (userName email : string) : list string :=
  (if bool_decide (userName = "") then ["User name is required"] else [])
  ++ (if bool_decide (email = "") then ["Email is required"] else []).

(** [userLogSchema.statics.createLoginLog]; [now] is the clock at
    [new Date()], [created] at the [createdAt] default, [savedAt] when
    [create] stamps [updatedAt]. *)
Definition createLoginLog (db : gmap string t) (now created savedAt : Z)
    (u : userData) (ip agent tok : option string)
    : outcome (string * t) * gmap string t :=
  let userName :=
    trim (match ud_fullName u with
          | Some n => if bool_decide (n = "") then beforeAt (ud_email u) else n
          | None => beforeAt (ud_email u)
          end) in
  let email := trim (ud_email u) in
  match requiredErrors userName email with
  | [] =>
    let doc :=
      mk (ud_userId u) userName email (ud_role u) login (Some now) None tok
         (trim <$> ip) (trim <$> agent) None active created savedAt in
    (returned (freshId db, doc), <[freshId db := doc]> db)
  | errors => (thrown errors, db)
  end.

End Create.

End LedgerLogin.

(** ** The other admin routes (routes/userLogRoutes.js) *)

Module UserLogAdmin.

Import UserLog UserLogRoutes.

(** [averageSessionDuration] is a number or [null] ([None]). *)
Record logStats : Type := mkLogStats {
  totalLogs : nat;
  totalLogins : nat;
  totalLogouts : nat;
  failedLogins : nat;
  adminLogs : nat;
  userLogs : nat;
  averageSessionDuration : option Q;
  recentActivity : nat
}.

Definition countIf (P : t -> bool) (l : list (string * t)) : nat :=
length (filter (λ kv, P kv.2 = true) l).

(** The [$cond] of the average: the duration when it is not [null] and
    greater than 0. *)
Definition positiveDuration (e : t) : option Z :=
match sessionDuration e with
| Some d => if (0 <? d)%Z then Some d else None
| None => None
end.

(** [$avg], which skips [null]: the mean of the numbers, [null] when
    there is none. *)
Definition avg (l : list Z) : option Q :=
match l with
| [] => None
| _ :: _ =>
  Some (inject_Z (foldr Z.add 0%Z l) / inject_Z (Z.of_nat (length l)))%Q
end.

(** [dateFilter]: it has a [createdAt] key when a bound is given. *)
Definition dateFilter (startDate endDate : option Z)
    : option (option Z * option Z) :=
match startDate, endDate with
| None, None => None
| lo, hi => Some (lo, hi)
end.

Definition inDates (r : option (option Z * option Z)) (kv : string * t)
    : bool :=
match r with
| Some r => inRange r (createdAt kv.2)
| None => true
end.

(** [router.get('/stats', ...)]; [sevenDaysAgo] is the date the handler
    computes from the clock.  In the filter of [recentActivity] the
    spread of [dateFilter] comes after the [createdAt] key and replaces
    it. *)
Definition getStats (db : gmap string t) (sevenDaysAgo : Z)
    (startDate endDate : option Z) : reply logStats :=
let dateFilter := dateFilter startDate endDate in
let docs := filter (λ kv, inDates dateFilter kv = true) (map_to_list db) in
let recentFilter :=
  match dateFilter with
  | Some r => Some r
  | None => Some (Some sevenDaysAgo, None)
  end in
let recentActivity :=
  length (filter (λ kv, inDates recentFilter kv = true) (map_to_list db)) in
match docs with
| [] => ok (mkLogStats 0 0 0 0 0 0 (Some 0%Q) recentActivity)
| _ :: _ =>
  ok (mkLogStats
        (length docs)
        (countIf (λ e, bool_decide (actionName (action e) = "login")) docs)
        (countIf (λ e, bool_decide (actionName (action e) = "logout")) docs)
        (countIf (λ e, bool_decide (actionName (action e) = "failed_login"))
           docs)
        (countIf (λ e, bool_decide (roleName (role e) = "admin")) docs)
        (countIf (λ e, bool_decide (roleName (role e) = "user")) docs)
        (avg (omap (λ kv, positiveDuration kv.2) docs))
        recentActivity)
end.

(** [router.delete('/:id', ...)]: [findByIdAndDelete], for an [id]
    that casts to an ObjectId ([Cast.deleteLog] has the other case). *)
Definition deleteLog (db : gmap string t) (id : string)
    : reply t * gmap string t :=
match db !! id with
| None => (fail 404 "User log not found", db)
| Some e => (ok e, delete id db)
end.

End UserLogAdmin.

(** ** Authentication middleware (middleware/authMiddleware.js) *)

Module Auth.

(** The decoded token the routes read: [req.user]. *)
Record user : Type := mkUser {
  userId : string;
  role : string
}.

Section Middleware.

(** [jwt.verify(token, secret)]: the payload, or [None] when it throws. *)
Variable verify : string -> option user.

(** The token of an [Authorization] header: what follows ["Bearer "],
    or the header itself. *)
Definition tokenOf (authHeader : string) : string :=
  if String.prefix "Bearer " authHeader
  then String.substring 7 (String.length authHeader - 7) authHeader
  else authHeader.

(** [protect]: [ok] is the call of [next()] with [req.user] set. *)
Definition protect (authHeader : option string) : reply user :=
  match authHeader with
  | None => fail 401 "No token provided"
  | Some h =>
    if bool_decide (h = "") then fail 401 "No token provided"
    else
      let token := tokenOf h in
      if bool_decide (token = "") then fail 401 "Invalid token format"
      else
        match verify token with
        | Some decoded => ok decoded
        | None => fail 401 "Invalid or expired token"
        end
  end.

(** [adminOnly] *)
Definition adminOnly (u : user) : reply user :=
  if negb (bool_decide (role u = "admin")) then fail 403 "Access denied"
  else ok u.

(** [router.use(protect)] in front of a task handler, which reads
    [req.user.userId]. *)
Definition taskRoute {A S : Type} (authHeader : option string)
    (handler : string -> S -> reply A * S) (s : S) : reply A * S :=
  match protect authHeader with
  | fail code message => (fail code message, s)
  | ok u => handler (userId u) s
  end.

(** [router.use(protect); router.use(adminOnly)] in front of a handler
    of the user-log routes. *)
Definition adminRoute {A S : Type} (authHeader : option string)
    (handler : S -> reply A * S) (s : S) : reply A * S :=
  match protect authHeader with
  | fail code message => (fail code message, s)
  | ok u =>
    match adminOnly u with
    | fail code message => (fail code message, s)
    | ok _ => handler s
    end
  end.

End Middleware.

End Auth.

(** ** The log page of the admin client (pages/AdminPages/UserLogPage.jsx) *)

Module LogPage.

(** [formatDuration]: [minutes] is the [sessionDuration] of a row,
    [None] for [null]. *)
Definition formatDuration (minutes : option Z) : string :=
match minutes with
| None => "N/A"
| Some m =>
  if (m =? 0)%Z then "N/A"
  else if (m <? 60)%Z then pretty m +:+ "m"
  else
    let hours := (m / 60)%Z in
    let mins := Z.rem m 60 in
    pretty hours +:+ "h " +:+ pretty mins +:+ "m"
end.

(** [handleLogSelection]: the next [selectedLogs]. *)
Definition handleLogSelection (selectedLogs : list string)
    (logId : string) (isSelected : bool) : list string :=
if isSelected then selectedLogs ++ [logId]
else filter (λ id, id ≠ logId) selectedLogs.

(** [handleSelectAll] over the rows of the page. *)
Definition handleSelectAll {A : Type} (logs : list (string * A))
    (isSelected : bool) : list string :=
if isSelected then logs.*1 else [].

(** The two ends of "Showing a to b of n results". *)
Definition showing (p : UserLogRoutes.pagination) : Z * Z :=
((UserLogRoutes.currentPage p - 1) * UserLogRoutes.limit p + 1,
 Z.min (UserLogRoutes.currentPage p * UserLogRoutes.limit p)
       (UserLogRoutes.totalCount p))%Z.

End LogPage.

(** ** Walking through the pages of a listing *)

Module Pages.

Import UserLogRoutes.

(** The request for page [p] with the limit, filters and sort of
    [req]. *)
Definition atPage (req : listing) (p : Z) : listing :=
mkListing (Some p) (l_limit req) (l_filters req) (l_sortBy req)
          (l_sortOrder req).

(** The documents of an answer of the listing. *)
Definition rows (r : option (reply (list (string * UserLog.t) * pagination)))
    : list (string * UserLog.t) :=
match r with
| Some (ok (logs, _)) => logs
| _ => []
end.

End Pages.

(** ** Request ids that do not cast (the [catch] of the handlers) *)

Module Cast.

(** The [filters] member of the bulk delete's body as it arrives: a
    JSON scalar (an absent member reads [undefined]), a string, an
    array, or an object with its fields. *)
Inductive filtersValue : Type :=
| scalar (v : Js.value)
| text (s : string)
| array
| object (f : UserLogRoutes.filters).

(** [else if (filters)] and the reads [filters.action], ...,
    [filters.endDate] under it: a falsy value takes the branch of the
    400; an object gives its fields; every other truthy value reads
    [undefined] on all five. *)
Definition readFilters (x : filtersValue) : option UserLogRoutes.filters :=
  match x with
  | scalar v =>
    if TaskCrud.isTruthy v
    then Some (UserLogRoutes.mkFilters None None None None None)
    else None
  | text s =>
    if bool_decide (s = "")
    then None
    else Some (UserLogRoutes.mkFilters None None None None None)
  | array => Some (UserLogRoutes.mkFilters None None None None None)
  | object f => Some f
  end.

Section Routes.

(** Mongoose's cast of a request string to an ObjectId: whether it
    succeeds.  A query on [_id] with a string that does not cast throws
    a CastError inside the handler's [try]; the [catch] answers 500
    with the handler's message and nothing is written.  The [userId]
    of the verified token is an id the server issued and casts. *)
Variable isObjectId : string -> bool.

Variable schemaValid : Task.t -> bool.
Variable trim : string -> string.
Variable regexTest : string -> string -> bool.

(** [router.get('/:id', ...)] of the task routes, for any [:id] *)
Definition getTask (db : gmap string Task.t) (id uid : string)
    : reply Task.t :=
  if isObjectId id then TaskCrud.getTask db id uid
  else fail 500 "Failed to retrieve task".

(** [router.put('/:id', ...)], for any [:id] *)
Definition put (db : gmap string Task.t) (id uid : string)
    (body : Task.putBody) : reply Task.t * gmap string Task.t :=
  if isObjectId id then Task.put schemaValid trim db id uid body
  else (fail 500 "Failed to update task", db).

(** [router.patch('/:id/status', ...)], for any [:id] *)
Definition patchStatus (db : gmap string Task.t) (id uid : string)
    : reply Task.t * gmap string Task.t :=
  if isObjectId id then Task.patchStatus schemaValid db id uid
  else (fail 500 "Failed to update task status", db).

(** [router.delete('/:id', ...)] of the task routes, for any [:id] *)
Definition deleteTask (db : gmap string Task.t) (id uid : string)
    : reply Task.t * gmap string Task.t :=
  if isObjectId id then TaskCrud.deleteTask db id uid
  else (fail 500 "Failed to delete task", db).

(** The range test of the progress route, which runs before the
    query. *)
Definition progressRefused (progress : Js.value) : bool :=
  Js.is_undefined progress
  || Js.ltb (Js.ToNumber progress) (Some 0%Q)
  || Js.gtb (Js.ToNumber progress) (Some 100%Q).

(** [router.patch('/:id/progress', ...)], for any [:id]: a refused
    value is answered 400 before the id is looked at. *)
Definition patchProgress (db : gmap string Task.t) (id uid : string)
    (progress : Js.value) : reply Task.t * gmap string Task.t :=
  if progressRefused progress || isObjectId id
  then Task.patchProgress schemaValid db id uid progress
  else (fail 500 "Failed to update progress", db).

(** [router.delete('/:id', ...)] of the user-log routes, for any [:id] *)
Definition deleteLog (db : gmap string UserLog.t) (id : string)
    : reply UserLog.t * gmap string UserLog.t :=
  if isObjectId id then UserLogAdmin.deleteLog db id
  else (fail 500 "Failed to delete user log", db).

(** [router.delete('/', ...)] of the user-log routes, for any body
    ([ids] is [Some l] when it is an array): the cast of
    [{ _id: { $in: ids } }] needs every listed id to cast. *)
Definition deleteLogs (db : gmap string UserLog.t)
    (ids : option (list string)) (filters : filtersValue)
    : reply nat * gmap string UserLog.t :=
  match ids with
  | Some (id :: rest) =>
    if forallb isObjectId (id :: rest)
    then UserLogRoutes.deleteLogs regexTest db
           (UserLogRoutes.mkDelete ids (readFilters filters))
    else (fail 500 "Failed to delete user logs", db)
  | _ =>
    UserLogRoutes.deleteLogs regexTest db
      (UserLogRoutes.mkDelete ids (readFilters filters))
  end.

End Routes.

End Cast.

(** ** More instances and sample data *)

Module Samples.

Import Instances.

(** A store sort that keeps the order it is given. *)
Definition sameOrder (l : list (string * Task.t)) : list (string * Task.t) :=
l.

(** Ids in sequence: ["t2"] after one task, ["e3"] after two entries. *)
Definition nextTaskId (db : gmap string Task.t) : string :=
"t" +:+ pretty (S (size db)).

Definition nextLogId (db : gmap string UserLog.t) : string :=
"e" +:+ pretty (S (size db)).

Definition planOfU2 : Task.t :=
Task.mk "u2" "Plan" "Sprint plan" Task.complete Task.high None 100.

(** A task of [u1] under ["t1"] and a task of [u2] under ["t2"]. *)
Definition twoOwners : gmap string Task.t :=
{[ "t1" := report Task.incomplete 40; "t2" := planOfU2 ]}.

(** [{ title: "  Call  ", description: "Call the client" }] *)
Definition callBody : TaskCrud.postBody :=
TaskCrud.mkPost (Some "  Call  ") (Some "Call the client") None None
                Js.undefined.

Definition callTask : Task.t :=
Task.mk "u1" "Call" "Call the client" Task.incomplete Task.medium None 0.

(** Three tokens: one of an admin, one each of [u1] and [u2]. *)
Definition verifyToken (token : string) : option Auth.user :=
if bool_decide (token = "tok-admin") then Some (Auth.mkUser "a1" "admin")
else if bool_decide (token = "tok-u1") then Some (Auth.mkUser "u1" "user")
else if bool_decide (token = "tok-u2") then Some (Auth.mkUser "u2" "user")
else None.

Definition alice : LedgerLogin.userData :=
LedgerLogin.mkUserData "u1" None "alice@example.com" UserLog.user.

(** The entry [createLoginLog] makes for [alice] under token [c3] at
    time 3000. *)
Definition aliceLogin : UserLog.t :=
UserLog.mk "u1" "alice" "alice@example.com" UserLog.user UserLog.login
           (Some 3000%Z) None (Some "c3") None None None UserLog.active
           3000 3001.

(** The listing with [action=login] and nothing else. *)
Definition onlyLogins : UserLogRoutes.listing :=
UserLogRoutes.mkListing None None
  (UserLogRoutes.mkFilters (Some "login") None None None None) None None.

(** An instance of the cast: 24 hexadecimal digits. *)
Definition isHexDigit (a : Ascii.ascii) : bool :=
let n := Ascii.nat_of_ascii a in
((48 <=? n)%nat && (n <=? 57)%nat)
|| ((97 <=? n)%nat && (n <=? 102)%nat)
|| ((65 <=? n)%nat && (n <=? 70)%nat).

Fixpoint allHex (s : string) : bool :=
match s with
| EmptyString => true
| String a s' => isHexDigit a && allHex s'
end.

Definition isHex24 (s : string) : bool :=
(String.length s =? 24)%nat && allHex s.

(** An instance of the call of [ObjectId] without [new], where it is a
    function: it returns on the strings that cast. *)
Definition objectIdFunction (s : string) : bool := isHex24 s.

Definition idA : string := "65a1f0000000000000000001".
Definition idB : string := "65a1f0000000000000000002".
Definition userA : string := "65a1f00000000000000000a1".
Definition userB : string := "65a1f00000000000000000b2".

(** A task of [userA] under [idA] and a task of [userB] under [idB]. *)
Definition taskOfA : Task.t :=
Task.mk userA "Report" "Quarterly report" Task.incomplete Task.medium None 40.

Definition taskOfB : Task.t :=
Task.mk userB "Plan" "Sprint plan" Task.complete Task.high None 100.

Definition hexTasks : gmap string Task.t :=
{[ idA := taskOfA; idB := taskOfB ]}.


(** Page 3 of a listing by 20. *)
Definition page3 : UserLogRoutes.listing :=
UserLogRoutes.mkListing (Some 3%Z) None noFilters None None.

End Samples.

(** * Properties *)

(** ** Numeric built-ins *)

Module JsFacts.

Lemma Qle_bool_inject (a b : Z) :
  Qle_bool (inject_Z a) (inject_Z b) = (a <=? b)%Z.
Proof. unfold Qle_bool, inject_Z; simpl. by rewrite !Z.mul_1_r. Qed.

Lemma Qeq_bool_inject (a b : Z) :
  Qeq_bool (inject_Z a) (inject_Z b) = (a =? b)%Z.
Proof. unfold Qeq_bool, inject_Z; simpl. by rewrite !Z.mul_1_r. Qed.

(** The same against the two literals of the progress route. *)
Lemma Qle_bool_0_inject (p : Z) : Qle_bool 0 (inject_Z p) = (0 <=? p)%Z.
Proof. exact (Qle_bool_inject 0 p). Qed.

Lemma Qle_bool_inject_0 (p : Z) : Qle_bool (inject_Z p) 0 = (p <=? 0)%Z.
Proof. exact (Qle_bool_inject p 0). Qed.

Lemma Qle_bool_inject_100 (p : Z) :
  Qle_bool (inject_Z p) 100 = (p <=? 100)%Z.
Proof. exact (Qle_bool_inject p 100). Qed.

Lemma Qeq_bool_inject_100 (p : Z) :
  Qeq_bool (inject_Z p) 100 = (p =? 100)%Z.
Proof. exact (Qeq_bool_inject p 100). Qed.

Lemma Qle_bool_false (x y : Q) : Qle_bool x y = false ↔ (y < x)%Q.
Proof.
  split.
  - intros H. apply Qnot_le_lt. intros Hle.
    apply Qle_bool_iff in Hle. congruence.
  - intros H. destruct (Qle_bool x y) eqn:E; [|done].
    apply Qle_bool_iff in E. by apply Qlt_not_le in H.
Qed.

(** The clamp of the task routes. *)
Lemma clamp_number (q : Q) :
  Js.Math_min (Js.Math_max (Some q) (Some 0%Q)) (Some 100%Q)
  = Some (Instances.clamped q).
Proof.
  unfold Js.Math_min, Js.Math_max, Instances.clamped.
  destruct (Qle_bool q 0); reflexivity.
Qed.

(** [Math.round(d / 60000)] on an integer [d] is a floor division. *)
Lemma round_minutes (d : Z) :
  Js.Math_round (inject_Z d / 60000) = ((d + 30000) / 60000)%Z.
Proof.
  unfold Js.Math_round.
  assert (E : (inject_Z d / 60000 + (1 # 2) == (d + 30000) # 60000)%Q).
  { unfold Qeq, Qdiv, Qmult, Qplus, Qinv, inject_Z; simpl. lia. }
  rewrite (Qfloor_comp _ _ E). reflexivity.
Qed.

End JsFacts.

(** ** Task routes *)

Module TaskFacts.

Import Task JsFacts.

Section Facts.

Variable schemaValid : t → bool.
Variable trim : string → string.

Lemma findOne_lookup (db : gmap string t) id uid task :
  findOne db id uid = Some task → db !! id = Some task ∧ userId task = uid.
Proof.
  unfold findOne. destruct (db !! id) as [x|]; [|done].
  case_bool_decide; [|done]. intros [= ->]. done.
Qed.

(** The range guard of the progress route, on a number. *)
Lemma guard_number (q : Q) :
  Js.is_undefined (Js.number q)
  || Js.ltb (Js.ToNumber (Js.number q)) (Some 0%Q)
  || Js.gtb (Js.ToNumber (Js.number q)) (Some 100%Q)
  = negb (Qle_bool 0 q) || negb (Qle_bool q 100).
Proof. reflexivity. Qed.

Lemma clamped_integer (p : Z) :
  (0 ≤ p ≤ 100)%Z → Instances.clamped (inject_Z p) = inject_Z p.
Proof.
  intros Hp. unfold Instances.clamped.
  rewrite Qle_bool_inject_0, Qle_bool_inject_100.
  destruct (Z.leb_spec p 0).
  - by replace p with 0%Z by lia.
  - by replace (p <=? 100)%Z with true by (symmetry; apply Z.leb_le; lia).
Qed.

(** C1. What the handler does with a valid integer progress [p] in
    [0,100]: [p] is stored as given; 100 forces [complete]; a value
    strictly between 0 and 100 on a complete task forces [incomplete];
    in every other case the status is left as it was.  The second
    branch tests [task.progress > 0 && task.status === 'complete']
    under the comment "If progress is less than 100% but was complete,
    mark as incomplete": at [p = 0] the test fails and a complete task
    stays complete, against the comment. *)
Theorem patchProgress_status_rule (db : gmap string t) id uid task (p : Z) :
  findOne db id uid = Some task →
  (0 ≤ p ≤ 100)%Z →
  let status' :=
    if (p =? 100)%Z then complete
    else if (0 <? p)%Z && bool_decide (status task = complete)
         then incomplete
         else status task in
  let task' :=
    mk (userId task) (title task) (description task) status'
       (priority task) (dueDate task) (inject_Z p) in
  schemaValid task' = true →
  patchProgress schemaValid db id uid (Js.number (inject_Z p))
  = (ok task', <[id := task']> db).
Proof.
  intros Hfind Hp status' task' Hvalid.
  unfold patchProgress. rewrite guard_number.
  rewrite Qle_bool_0_inject, Qle_bool_inject_100.
  replace (0 <=? p)%Z with true by (symmetry; apply Z.leb_le; lia).
  replace (p <=? 100)%Z with true by (symmetry; apply Z.leb_le; lia).
  cbn [negb orb]. rewrite Hfind.
  cbn [Js.ToNumber]. rewrite clamp_number, clamped_integer by done.
  cbv zeta. unfold with_progress, with_status.
  cbn [progress status userId title description priority dueDate].
  unfold Js.eqb, Js.gtb, Js.ltb.
  rewrite Qeq_bool_inject_100, Qle_bool_inject_0.
  assert (Hgt : negb (p <=? 0)%Z = (0 <? p)%Z).
  { destruct (Z.leb_spec p 0), (Z.ltb_spec 0 p); simpl; lia || done. }
  rewrite Hgt. unfold save.
  subst task' status'.
  destruct (p =? 100)%Z; [by rewrite Hvalid|].
  destruct ((0 <? p)%Z && bool_decide (status task = complete));
    by rewrite Hvalid.
Qed.

(** C3 (amended). An absent progress and every number below 0 or
    above 100 is answered 400 and nothing is written: the value is not
    clamped into range. *)
Theorem patchProgress_rejects_out_of_range
    (db : gmap string t) id uid (v : Js.value) :
  (v = Js.undefined
   ∨ ∃ q, Js.ToNumber v = Some q ∧ (q < 0 ∨ 100 < q)%Q) →
  patchProgress schemaValid db id uid v
  = (fail 400 "Progress must be between 0 and 100", db).
Proof.
  intros [-> | (q & Hq & Hrange)]; [done|].
  unfold patchProgress. rewrite Hq. unfold Js.gtb, Js.ltb.
  destruct Hrange as [H | H]; apply Qle_bool_false in H; rewrite H.
  - by rewrite orb_true_r.
  - by rewrite orb_true_r.
Qed.

(** The 400 of the progress route is given to no number inside
    [0,100], integer or not. *)
Lemma patchProgress_in_range_not_400 (db : gmap string t) id uid (q : Q) :
  (0 <= q)%Q → (q <= 100)%Q →
  (patchProgress schemaValid db id uid (Js.number q)).1
  ≠ fail 400 "Progress must be between 0 and 100".
Proof.
  intros H0 H100. unfold patchProgress. rewrite guard_number.
  apply Qle_bool_iff in H0, H100. rewrite H0, H100. simpl.
  destruct (findOne db id uid); [|done].
  unfold Js.Math_max, Js.Math_min, save.
  match goal with |- context [schemaValid ?x] =>
    destruct (schemaValid x) end; done.
Qed.

(** C5. What [PUT] does with a numeric progress: it stores
    [Math.min(Math.max(progress, 0), 100)] and assigns the body's
    status when one is supplied; the status is not derived from the
    progress, as the progress route derives it on the same field. *)
Theorem put_progress_without_derivation
    (db : gmap string t) id uid task body (q : Q) :
  findOne db id uid = Some task →
  b_progress body = Js.number q →
  let task' :=
    mk (userId task)
       (match b_title body with Some x => trim x | None => title task end)
       (match b_description body with
        | Some x => trim x | None => description task end)
       (default (status task) (b_status body))
       (default (priority task) (b_priority body))
       (default (dueDate task) (b_dueDate body))
       (Instances.clamped q) in
  schemaValid task' = true →
  put schemaValid trim db id uid body = (ok task', <[id := task']> db).
Proof.
  intros Hfind Hq task' Hvalid. unfold put. rewrite Hfind, Hq.
  cbn [Js.is_undefined Js.ToNumber]. rewrite clamp_number.
  unfold save. fold task'. by rewrite Hvalid.
Qed.

(** C6. The toggle maps [complete] to [incomplete] and [incomplete] to
    [complete], writes back a document that differs from the old one
    in the status only, leaves every other task alone, and a second
    toggle restores the original document and collection. *)
Theorem patchStatus_toggles (db : gmap string t) id uid task :
  findOne db id uid = Some task →
  schemaValid task = true →
  schemaValid
    (with_status task
       (if bool_decide (status task = complete)
        then incomplete else complete)) = true →
  ∃ task',
    patchStatus schemaValid db id uid = (ok task', <[id := task']> db)
    ∧ (status task = complete → status task' = incomplete)
    ∧ (status task = incomplete → status task' = complete)
    ∧ progress task' = progress task
    ∧ userId task' = userId task
    ∧ title task' = title task
    ∧ description task' = description task
    ∧ priority task' = priority task
    ∧ dueDate task' = dueDate task
    ∧ (∀ other, other ≠ id → <[id := task']> db !! other = db !! other)
    ∧ patchStatus schemaValid (<[id := task']> db) id uid = (ok task, db).
Proof.
  intros Hfind Hvalid Hvalid'.
  destruct (findOne_lookup _ _ _ _ Hfind) as [Hlook Huid].
  eexists. split.
  { unfold patchStatus. rewrite Hfind. unfold save.
    rewrite Hvalid'. reflexivity. }
  repeat split.
  - intros ->. done.
  - intros ->. done.
  - intros other Hne. by rewrite lookup_insert_ne.
  - unfold patchStatus, findOne. rewrite lookup_insert_eq.
    cbn [with_status userId status].
    rewrite bool_decide_eq_true_2 by done. unfold save.
    rewrite insert_insert_eq.
    match goal with |- context [schemaValid ?x] =>
      assert (x = task) as ->
    end.
    { destruct task as [u ti de [] pr du pg]; unfold with_status;
        cbn [userId title description status priority dueDate progress];
        repeat case_bool_decide; done. }
    rewrite Hvalid. f_equal. by apply insert_id.
Qed.

End Facts.

(** *** Worked requests *)

Import Instances.

(** Raising an incomplete task from 40 to 80 leaves it incomplete. *)
Lemma patchProgress_status_rule_witness :
  findOne (tasks incomplete 40) "t1" "u1" = Some (report incomplete 40)
  ∧ (0 ≤ 80 ≤ 100)%Z
  ∧ specSchema (report incomplete 80) = true
  ∧ patchProgress specSchema (tasks incomplete 40) "t1" "u1" (Js.number 80)
    = (ok (report incomplete 80),
       <["t1" := report incomplete 80]> (tasks incomplete 40)).
Proof.
  split; [reflexivity|]. split; [lia|]. split; [reflexivity|].
  apply (patchProgress_status_rule specSchema (tasks incomplete 40)
           "t1" "u1" (report incomplete 40) 80);
    [reflexivity | lia | reflexivity].
Defined.

(** C1, the failing input: a complete task at 100 whose progress is
    set to 0 is stored with progress 0 and is still [complete], where
    the handler's comment on that branch says it is marked
    incomplete. *)
Lemma patchProgress_zero_keeps_complete :
  patchProgress specSchema (tasks complete 100) "t1" "u1" (Js.number 0)
  = (ok (report complete 0), tasks complete 0).
Proof. vm_compute. reflexivity. Qed.

(** Falling from 100 to 1 does reopen the task. *)
Example patchProgress_one_reopens :
  patchProgress specSchema (tasks complete 100) "t1" "u1" (Js.number 1)
  = (ok (report incomplete 1), tasks incomplete 1).
Proof. vm_compute. reflexivity. Qed.

(** 150 is answered 400 and the task keeps its progress of 40. *)
Lemma patchProgress_rejects_out_of_range_witness :
  (Js.number 150 = Js.undefined
   ∨ ∃ q, Js.ToNumber (Js.number 150) = Some q ∧ (q < 0 ∨ 100 < q)%Q)
  ∧ patchProgress specSchema (tasks incomplete 40) "t1" "u1" (Js.number 150)
    = (fail 400 "Progress must be between 0 and 100", tasks incomplete 40).
Proof.
  assert (H : Js.number 150 = Js.undefined
              ∨ ∃ q, Js.ToNumber (Js.number 150) = Some q
                     ∧ (q < 0 ∨ 100 < q)%Q).
  { right. exists 150%Q. split; [reflexivity|]. right. reflexivity. }
  split; [exact H|].
  exact (patchProgress_rejects_out_of_range specSchema
           (tasks incomplete 40) "t1" "u1" (Js.number 150) H).
Defined.

(** C3, as stated, fails at 50.5: the handler does not answer 400.
    With a schema that has no validator the fraction is stored; with a
    schema that wants an integer the [save] is refused and the answer is
    the generic 500. *)
Lemma patchProgress_fraction_not_rejected :
  patchProgress anySchema (tasks incomplete 40) "t1" "u1"
    (Js.number (101 # 2))
  = (ok (report incomplete (101 # 2)), tasks incomplete (101 # 2))
  ∧ patchProgress specSchema (tasks incomplete 40) "t1" "u1"
      (Js.number (101 # 2))
    = (fail 500 "Failed to update progress", tasks incomplete 40).
Proof. split; vm_compute; reflexivity. Qed.

(** [PUT { progress: 150 }] stores 100 and keeps the task incomplete. *)
Lemma put_progress_without_derivation_witness :
  findOne (tasks incomplete 40) "t1" "u1" = Some (report incomplete 40)
  ∧ b_progress (onlyProgress 150) = Js.number 150
  ∧ specSchema (report incomplete 100) = true
  ∧ put specSchema trim (tasks incomplete 40) "t1" "u1" (onlyProgress 150)
    = (ok (report incomplete 100),
       <["t1" := report incomplete 100]> (tasks incomplete 40)).
Proof.
  split; [reflexivity|]. split; [reflexivity|]. split; [reflexivity|].
  apply (put_progress_without_derivation specSchema trim
           (tasks incomplete 40) "t1" "u1" (report incomplete 40)
           (onlyProgress 150) 150);
    reflexivity.
Defined.

(** C5, the failing inputs: [PUT { progress: 100 }] on an incomplete
    task stores 100 and leaves it incomplete, and [PUT { progress: 50 }]
    on a complete task stores 50 and leaves it complete, where the
    progress route, on the same task and value, makes the first
    complete and the second incomplete. *)
Lemma put_does_not_derive_status :
  put specSchema trim (tasks incomplete 40) "t1" "u1" (onlyProgress 100)
  = (ok (report incomplete 100), tasks incomplete 100)
  ∧ patchProgress specSchema (tasks incomplete 40) "t1" "u1"
      (Js.number 100)
    = (ok (report complete 100), tasks complete 100)
  ∧ put specSchema trim (tasks complete 100) "t1" "u1" (onlyProgress 50)
    = (ok (report complete 50), tasks complete 50)
  ∧ patchProgress specSchema (tasks complete 100) "t1" "u1"
      (Js.number 50)
    = (ok (report incomplete 50), tasks incomplete 50).
Proof. repeat split; vm_compute; reflexivity. Qed.

(** Toggling the incomplete task at 40: complete, still at 40, and a
    second toggle gives the collection back. *)
Lemma patchStatus_toggles_witness :
  findOne (tasks incomplete 40) "t1" "u1" = Some (report incomplete 40)
  ∧ specSchema (report incomplete 40) = true
  ∧ specSchema (report complete 40) = true
  ∧ ∃ task',
      patchStatus specSchema (tasks incomplete 40) "t1" "u1"
      = (ok task', <["t1" := task']> (tasks incomplete 40))
      ∧ status task' = complete
      ∧ progress task' = 40%Q
      ∧ patchStatus specSchema (<["t1" := task']> (tasks incomplete 40))
          "t1" "u1"
        = (ok (report incomplete 40), tasks incomplete 40).
Proof.
  split; [reflexivity|]. split; [reflexivity|]. split; [reflexivity|].
  destruct (patchStatus_toggles specSchema (tasks incomplete 40)
              "t1" "u1" (report incomplete 40))
    as (task' & Hrun & _ & Hflip & Hprogress & _ & _ & _ & _ & _ & _ & Hback);
    [reflexivity | reflexivity | reflexivity |].
  exists task'. split; [exact Hrun|]. split; [by apply Hflip|].
  split; [exact Hprogress|]. exact Hback.
Defined.

End TaskFacts.

(** ** The ledger statics *)

Module LedgerFacts.

Import UserLog JsFacts.

(** *** [findOne(...).sort({ createdAt: -1 })] *)

Lemma later_fold_None (l : list (string * t)) :
  foldr later None l = None → l = [].
Proof.
  destruct l as [|kv l]; [done|]. simpl.
  destruct (foldr later None l) as [b|]; simpl; [|done].
  by destruct (createdAt b.2 <? createdAt kv.2)%Z.
Qed.

Lemma later_fold_Some (l : list (string * t)) (best : string * t) :
  foldr later None l = Some best →
  best ∈ l ∧ ∀ kv, kv ∈ l → (createdAt kv.2 ≤ createdAt best.2)%Z.
Proof.
  revert best. induction l as [|x l IH]; intros best; [done|]. simpl.
  destruct (foldr later None l) as [b|] eqn:E; simpl.
  - destruct (IH b eq_refl) as [Hin Hmax].
    destruct (Z.ltb_spec (createdAt b.2) (createdAt x.2));
      intros [= <-]; (split; [apply elem_of_cons; by auto|]);
      intros kv [->|Hkv]%elem_of_cons; try lia.
    + specialize (Hmax kv Hkv). lia.
    + by apply Hmax.
  - intros [= <-]. apply later_fold_None in E as ->.
    split; [apply elem_of_cons; by auto|].
    intros kv [->|Hkv]%elem_of_cons; [lia|].
    by apply elem_of_nil in Hkv.
Qed.

Lemma findLatest_None (P : t → bool) (db : gmap string t) :
  findLatest P db = None ↔ ∀ id e, db !! id = Some e → P e = false.
Proof.
  unfold findLatest. split.
  - intros H%later_fold_None id e Hlook.
    destruct (P e) eqn:HP; [|done].
    assert (Hin : (id, e) ∈ filter (λ kv : string * t, P kv.2 = true)
                                   (map_to_list db)).
    { apply list_elem_of_filter. split; [done|].
      by apply elem_of_map_to_list. }
    rewrite H in Hin. by apply elem_of_nil in Hin.
  - intros H.
    destruct (foldr later None _) as [[id e]|] eqn:E; [|done].
    apply later_fold_Some in E as [Hin _].
    apply list_elem_of_filter in Hin as [HP Hin]. simpl in HP.
    apply elem_of_map_to_list in Hin. rewrite (H _ _ Hin) in HP. done.
Qed.

Lemma findLatest_Some (P : t → bool) (db : gmap string t) id e :
  findLatest P db = Some (id, e) →
  db !! id = Some e
  ∧ P e = true
  ∧ ∀ id2 e2, db !! id2 = Some e2 → P e2 = true →
              (createdAt e2 ≤ createdAt e)%Z.
Proof.
  unfold findLatest. intros [Hin Hmax]%later_fold_Some.
  apply list_elem_of_filter in Hin as [HP Hin].
  apply elem_of_map_to_list in Hin. repeat split; [done..|].
  intros id2 e2 Hlook HP2.
  apply (Hmax (id2, e2)). apply list_elem_of_filter.
  split; [done|]. by apply elem_of_map_to_list.
Qed.

Lemma close_not_open uid tok e logoutAt d savedAt :
  isOpenLogin uid tok (close e logoutAt d savedAt) = false.
Proof.
  unfold isOpenLogin. apply andb_false_iff. right.
  by apply bool_decide_eq_false_2.
Qed.

Lemma expire_not_active tok e now :
  isActiveToken tok (expire e now) = false.
Proof.
  unfold isActiveToken. apply andb_false_iff. right.
  by apply bool_decide_eq_false_2.
Qed.

(** A logout writes to no document outside its own filter. *)
Lemma createLogoutLog_frame (db : gmap string t) now savedAt uid tok id e :
  db !! id = Some e → isOpenLogin uid tok e = false →
  (createLogoutLog db now savedAt uid tok).2 !! id = Some e.
Proof.
  intros Hlook Hclosed. unfold createLogoutLog.
  destruct (findLatest _ db) as [[id' e']|] eqn:E; [|done].
  apply findLatest_Some in E as (Hlook' & Hopen & _). simpl.
  rewrite lookup_insert_ne; [done|]. intros ->. congruence.
Qed.

Lemma isOpenLogin_fields uid tok e :
  isOpenLogin uid tok e = true
  ↔ userId e = uid ∧ jwtTokenId e = Some tok
    ∧ action e = login ∧ status e = active.
Proof.
  unfold isOpenLogin. rewrite !andb_true_iff, !bool_decide_eq_true.
  tauto.
Qed.

Lemma not_open_login uid tok e :
  ¬ (userId e = uid ∧ jwtTokenId e = Some tok
     ∧ action e = login ∧ status e = active) →
  isOpenLogin uid tok e = false.
Proof.
  intros Hno. destruct (isOpenLogin uid tok e) eqn:E; [|done].
  by apply isOpenLogin_fields in E.
Qed.

(** C2. [createLogoutLog uid tok] selects among the entries with
    [userId = uid], [jwtTokenId = tok], [action = login] and
    [status = active].  When there is none it returns [null] and the
    collection is as it was.  Otherwise it takes one of them that no
    other of them is created later than, sets its status to
    [logged_out], its logout time to the clock and its duration to the
    rounded minutes since the login time, and writes that document
    only: every other entry, and so every entry under another token
    (an active login of the same subject on a second device), is as it
    was.  A later logout of the pair
    leaves the closed document alone, and returns [null] without
    writing when the pair had no other such entry. *)
Theorem createLogoutLog_closes_latest
    (db : gmap string t) (now savedAt : Z) (uid tok : string) :
  let selected (e : t) : Prop :=
    userId e = uid ∧ jwtTokenId e = Some tok
    ∧ action e = login ∧ status e = active in
  match createLogoutLog db now savedAt uid tok with
  | (Some closed, db') =>
    ∃ id e,
      db !! id = Some e
      ∧ selected e
      ∧ (∀ id2 e2, db !! id2 = Some e2 → selected e2 →
                   (createdAt e2 ≤ createdAt e)%Z)
      ∧ closed
        = mk (userId e) (userName e) (email e) (role e) (action e)
             (loginTime e) (Some now) (jwtTokenId e) (ipAddress e)
             (userAgent e)
             (Some (Js.Math_round
                      (inject_Z (now - default 0%Z (loginTime e)) / 60000)))
             logged_out (createdAt e) savedAt
      ∧ status closed = logged_out
      ∧ logoutTime closed = Some now
      ∧ sessionDuration closed
        = Some (Js.Math_round
                  (inject_Z (now - default 0%Z (loginTime e)) / 60000))
      ∧ db' = <[id := closed]> db
      ∧ (∀ id2, id2 ≠ id → db' !! id2 = db !! id2)
      ∧ (∀ id2 e2, db !! id2 = Some e2 → jwtTokenId e2 ≠ Some tok →
                   db' !! id2 = Some e2)
      ∧ (∀ now2 saved2,
           (createLogoutLog db' now2 saved2 uid tok).2 !! id = Some closed)
      ∧ (∀ now2 saved2,
           (∀ id2 e2, db !! id2 = Some e2 → selected e2 → id2 = id) →
           createLogoutLog db' now2 saved2 uid tok = (None, db'))
  | (None, db') =>
    db' = db ∧ ∀ id e, db !! id = Some e → ¬ selected e
  end.
Proof.
  cbv zeta. unfold createLogoutLog at 1.
  destruct (findLatest _ db) as [[id e]|] eqn:E.
  - apply findLatest_Some in E as (Hlook & Hopen & Hmax).
    exists id, e. split; [exact Hlook|].
    split; [by apply isOpenLogin_fields|].
    split.
    { intros id2 e2 Hlook2 Hsel. apply (Hmax id2 e2 Hlook2).
      by apply isOpenLogin_fields. }
    split; [reflexivity|]. split; [reflexivity|]. split; [reflexivity|].
    split; [reflexivity|]. split; [reflexivity|]. split.
    { intros id2 Hne. by rewrite lookup_insert_ne. }
    split.
    { intros id2 e2 Hlook2 Htok.
      rewrite lookup_insert_ne; [exact Hlook2|].
      intros <-. apply isOpenLogin_fields in Hopen as (_ & Htok' & _).
      congruence. }
    split.
    + intros now2 saved2. apply createLogoutLog_frame.
      * apply lookup_insert_eq.
      * apply close_not_open.
    + intros now2 saved2 Honly. unfold createLogoutLog.
      assert (Hnone :
        findLatest (isOpenLogin uid tok)
          (<[id := close e now (minutesBetween (loginTime e) now) savedAt]>
             db) = None).
      { apply findLatest_None. intros id2 e2 Hlook2.
        destruct (decide (id2 = id)) as [->|Hne].
        - rewrite lookup_insert_eq in Hlook2. injection Hlook2 as <-.
          apply close_not_open.
        - rewrite lookup_insert_ne in Hlook2 by done.
          destruct (isOpenLogin uid tok e2) eqn:Hopen2; [|done].
          apply isOpenLogin_fields in Hopen2.
          by specialize (Honly _ _ Hlook2 Hopen2). }
      by rewrite Hnone.
  - split; [done|]. intros id e Hlook Hsel.
    apply isOpenLogin_fields in Hsel.
    apply (proj1 (findLatest_None _ _)) with (id := id) (e := e) in E;
      [congruence | exact Hlook].
Qed.

(** C4 (amended). The stamped duration is
    [Math.round((logoutTime - loginTime) / 60000)], the nearest whole
    number of minutes with halves rounded up; it is not floored at 0:
    it is negative exactly when the logout time is more than 30 seconds
    before the login time. *)
Theorem createLogoutLog_duration
    (db : gmap string t) (now savedAt : Z) (uid tok : string)
    (closed : t) (db' : gmap string t) :
  createLogoutLog db now savedAt uid tok = (Some closed, db') →
  let elapsed := (now - default 0 (loginTime closed))%Z in
  ∃ d : Z,
    sessionDuration closed = Some d
    ∧ logoutTime closed = Some now
    ∧ d = Js.Math_round (inject_Z elapsed / 60000)
    ∧ (60000 * d - 30000 ≤ elapsed < 60000 * d + 30000)%Z
    ∧ (0 ≤ elapsed → 0 ≤ d)%Z
    ∧ (d < 0 ↔ elapsed < -30000)%Z.
Proof.
  unfold createLogoutLog.
  destruct (findLatest _ db) as [[id e]|]; [|done].
  intros [= <- <-]. cbn [close loginTime sessionDuration logoutTime].
  eexists. split; [reflexivity|]. split; [reflexivity|].
  unfold minutesBetween. split; [reflexivity|].
  rewrite round_minutes.
  set (x := (now - default 0%Z (loginTime e))%Z).
  pose proof (Z.div_mod (x + 30000) 60000 ltac:(lia)) as Hdm.
  pose proof (Z.mod_pos_bound (x + 30000) 60000 ltac:(lia)) as Hb.
  repeat split; try lia.
Qed.

(** C7. [markTokenExpired] turns every document with the token and
    status [active] into [expired] without touching its logout time or
    duration (or any field but [updatedAt]), leaves every other document
    as it was, and a second run changes nothing. *)
Theorem markTokenExpired_spec (db : gmap string t) (now : Z) (tok : string) :
  let db' := (markTokenExpired db now tok).2 in
  (∀ id e, db !! id = Some e →
     jwtTokenId e = Some tok → status e = active →
     ∃ e', db' !! id = Some e'
           ∧ status e' = expired
           ∧ logoutTime e' = logoutTime e
           ∧ sessionDuration e' = sessionDuration e
           ∧ e' = expire e now)
  ∧ (∀ id e, db !! id = Some e →
       ¬ (jwtTokenId e = Some tok ∧ status e = active) →
       db' !! id = Some e)
  ∧ (∀ id, db !! id = None → db' !! id = None)
  ∧ (∀ now2, markTokenExpired db' now2 tok = (0%nat, db')).
Proof.
  unfold markTokenExpired; cbn [snd]. repeat split.
  - intros id e Hlook Htok Hactive. exists (expire e now).
    rewrite lookup_fmap, Hlook. simpl. unfold isActiveToken.
    rewrite !bool_decide_eq_true_2 by done. done.
  - intros id e Hlook Hno. rewrite lookup_fmap, Hlook. simpl.
    unfold isActiveToken.
    destruct (decide (jwtTokenId e = Some tok)) as [Ht|Ht];
      [destruct (decide (status e = active)) as [Hs|Hs]|].
    + by destruct Hno.
    + rewrite (bool_decide_eq_false_2 _ Hs). by rewrite andb_false_r.
    + by rewrite (bool_decide_eq_false_2 _ Ht).
  - intros id Hlook. by rewrite lookup_fmap, Hlook.
  - intros now2. f_equal.
    + apply map_size_empty_iff, map_empty. intros id.
      apply map_lookup_filter_None. right. intros e Hlook. simpl.
      rewrite lookup_fmap in Hlook.
      destruct (db !! id) as [e0|]; [|done]. injection Hlook as <-.
      destruct (isActiveToken tok e0) eqn:E; [|by rewrite E].
      by rewrite expire_not_active.
    + rewrite <- map_fmap_compose. apply map_eq. intros id.
      rewrite !lookup_fmap. destruct (db !! id) as [e0|]; [|done].
      simpl. f_equal.
      destruct (isActiveToken tok e0) eqn:E; [|by rewrite E].
      by rewrite expire_not_active.
Qed.

(** *** Worked calls *)

Import Instances.

(** Logging out [c1] closes the [c1] entry only: the [c2] entry of the
    same subject stays [active], and a replayed logout of [c1] returns
    [null] and changes nothing. *)
Example createLogoutLog_two_devices :
  createLogoutLog twoDevices 61000 61001 "u1" "c1"
  = (Some c1Closed, <["e1" := c1Closed]> twoDevices)
  ∧ <["e1" := c1Closed]> twoDevices !! "e2"
    = Some (loginOf "u1" "c2" 2000 active)
  ∧ createLogoutLog (<["e1" := c1Closed]> twoDevices) 99000 99001 "u1" "c1"
    = (None, <["e1" := c1Closed]> twoDevices).
Proof. repeat split; vm_compute; reflexivity. Qed.

(** Logging out [c1] on the ledger of two devices: the entry closed is
    ["e1"], the only one with the subject, the token, [login] and
    [active]; it is stamped 61000 and 1 minute; ["e2"], under token
    [c2], is as it was; a replayed logout returns [null] and writes
    nothing. *)
Lemma createLogoutLog_closes_latest_witness :
  ∃ closed,
    createLogoutLog twoDevices 61000 61001 "u1" "c1"
    = (Some closed, <["e1" := closed]> twoDevices)
    ∧ status closed = logged_out
    ∧ logoutTime closed = Some 61000%Z
    ∧ sessionDuration closed = Some 1%Z
    ∧ <["e1" := closed]> twoDevices !! "e2"
      = Some (loginOf "u1" "c2" 2000 active)
    ∧ createLogoutLog (<["e1" := closed]> twoDevices) 99000 99001 "u1" "c1"
      = (None, <["e1" := closed]> twoDevices).
Proof.
  pose proof (createLogoutLog_closes_latest twoDevices 61000 61001 "u1" "c1")
    as H.
  cbv zeta in H.
  assert (Honly : ∀ id e,
            twoDevices !! id = Some e →
            userId e = "u1" ∧ jwtTokenId e = Some "c1"
            ∧ action e = login ∧ status e = active →
            id = "e1" ∧ e = loginOf "u1" "c1" 1000 active).
  { intros id e Hlook (_ & Htok & _). unfold twoDevices in Hlook.
    apply lookup_insert_Some in Hlook as [[<- <-]|[_ Hlook]]; [done|].
    apply lookup_singleton_Some in Hlook as [_ <-]. discriminate Htok. }
  destruct (createLogoutLog twoDevices 61000 61001 "u1" "c1")
    as [[closed|] db'].
  - destruct H as (id & e & Hlook & Hsel & _ & _ & Hst & Hlo & Hdur & Hdb
                   & _ & Htok & _ & Hagain).
    destruct (Honly id e Hlook Hsel) as [-> ->].
    exists closed. subst db'.
    split; [reflexivity|]. split; [exact Hst|]. split; [exact Hlo|].
    split; [rewrite Hdur; vm_compute; reflexivity|].
    split; [apply Htok; [reflexivity | discriminate]|].
    apply Hagain. intros id2 e2 Hlook2 Hsel2.
    by destruct (Honly id2 e2 Hlook2 Hsel2).
  - destruct H as [_ Hnone]. exfalso.
    apply (Hnone "e1" (loginOf "u1" "c1" 1000 active)); [reflexivity|].
    repeat split; reflexivity.
Defined.

(** A logout 60 seconds after the login is stamped 1 minute. *)
Lemma createLogoutLog_duration_witness :
  createLogoutLog twoDevices 61000 61001 "u1" "c1"
  = (Some c1Closed, <["e1" := c1Closed]> twoDevices)
  ∧ ∃ d : Z,
      sessionDuration c1Closed = Some d
      ∧ logoutTime c1Closed = Some 61000%Z
      ∧ d = Js.Math_round
              (inject_Z (61000 - default 0%Z (loginTime c1Closed)) / 60000)
      ∧ (60000 * d - 30000 ≤ 61000 - default 0%Z (loginTime c1Closed)
         < 60000 * d + 30000)%Z
      ∧ (0 ≤ 61000 - default 0%Z (loginTime c1Closed) → 0 ≤ d)%Z
      ∧ (d < 0 ↔ 61000 - default 0%Z (loginTime c1Closed) < -30000)%Z.
Proof.
  assert (E : createLogoutLog twoDevices 61000 61001 "u1" "c1"
              = (Some c1Closed, <["e1" := c1Closed]> twoDevices))
    by (vm_compute; reflexivity).
  split; [exact E|].
  exact (createLogoutLog_duration twoDevices 61000 61001 "u1" "c1"
           c1Closed (<["e1" := c1Closed]> twoDevices) E).
Defined.

(** C4, as stated, fails: with the login stamped at 120000 and the
    logout clock reading 0, the stored duration is -2 minutes. *)
Lemma createLogoutLog_negative_duration :
  createLogoutLog skewed 0 1 "u1" "c1"
  = (Some (close (loginOf "u1" "c1" 120000 active) 0 (-2) 1),
     {[ "e1" := close (loginOf "u1" "c1" 120000 active) 0 (-2) 1 ]}).
Proof. vm_compute. reflexivity. Qed.

(** Expiring [c1] leaves [c2] active and stamps no logout on [c1]. *)
Example markTokenExpired_two_devices :
  markTokenExpired twoDevices 5000 "c1"
  = (1, {[ "e1" := expire (loginOf "u1" "c1" 1000 active) 5000;
           "e2" := loginOf "u1" "c2" 2000 active ]})
  ∧ logoutTime (expire (loginOf "u1" "c1" 1000 active) 5000) = None
  ∧ sessionDuration (expire (loginOf "u1" "c1" 1000 active) 5000) = None.
Proof. repeat split; vm_compute; reflexivity. Qed.

End LedgerFacts.

(** ** The admin routes over the ledger *)

Module RouteFacts.

Import UserLog UserLogRoutes JsFacts.

Lemma filter_all {A} (P : A → Prop) `{!∀ x, Decision (P x)} (l : list A) :
  (∀ x, P x) → filter P l = l.
Proof.
  intros Hall. induction l as [|x l IH]; [done|].
  rewrite filter_cons_True by done. by rewrite IH.
Qed.

(** Filtering a collection and filtering its list of documents keep the
    same number of documents. *)
Lemma size_filter_list {A} (P : string * A → Prop) `{!∀ x, Decision (P x)}
    (m : gmap string A) :
  size (filter P m) = length (filter P (map_to_list m)).
Proof.
  rewrite map_filter_alt, <- length_map_to_list.
  apply Permutation_length, map_to_list_to_map.
  eapply sublist_NoDup; [apply (NoDup_fst_map_to_list m)|].
  apply fmap_sublist, sublist_filter.
Qed.

(** [Math.ceil(n / m)] is the least [c] with [n <= c * m]. *)
Lemma ceil_div_bounds (n m : Z) :
  (0 < m)%Z →
  ((Js.Math_ceil (inject_Z n / inject_Z m) - 1) * m < n
   ∧ n ≤ Js.Math_ceil (inject_Z n / inject_Z m) * m)%Z.
Proof.
  intros Hm. unfold Js.Math_ceil, Qceiling.
  assert (E : (- (inject_Z n / inject_Z m) == inject_Z (- n) / inject_Z m)%Q).
  { rewrite inject_Z_opp. unfold Qdiv. ring. }
  rewrite (Qfloor_comp _ _ E), <- Zdiv_Qdiv.
  pose proof (Z.div_mod (- n) m ltac:(lia)) as Hdm.
  pose proof (Z.mod_pos_bound (- n) m Hm) as Hb.
  nia.
Qed.

Section Facts.

Variable regexTest : string → string → bool.
Variable sortDocs :
  string → bool → list (string * t) → list (string * t).
Variable isObjectId : string → bool.
Hypothesis sortDocs_perm : ∀ field desc l, sortDocs field desc l ≡ₚ l.

Lemma matches_empty kv : matches regexTest emptyQuery kv = true.
Proof. reflexivity. Qed.





(** C9. For a 1-based page and a page size of at least 1 the listing
    answers with [totalPages = ceil(totalCount / limit)],
    [hasNextPage] true exactly when [page * limit < totalCount] and
    [hasPrevPage] true exactly when [page > 1]; the page holds the
    documents left after the skip, at most [limit] of them.  With 45
    matching entries and a limit of 20 there are 3 pages, page 3 has 5
    items and no next page, and page 1 has no previous page. *)
Theorem getLogs_pagination (db : gmap string t) (req : listing) :
  let pageNum := default 1%Z (l_page req) in
  let limitNum := default 20%Z (l_limit req) in
  (1 ≤ pageNum)%Z → (1 ≤ limitNum)%Z →
  ∃ logs pg,
    getLogs regexTest sortDocs db req = Some (ok (logs, pg))
    ∧ currentPage pg = pageNum
    ∧ limit pg = limitNum
    ∧ totalCount pg
      = countDocuments regexTest db (buildQuery (l_filters req))
    ∧ ((totalPages pg - 1) * limitNum < totalCount pg
       ∧ totalCount pg ≤ totalPages pg * limitNum)%Z
    ∧ (hasNextPage pg = true ↔ (pageNum * limitNum < totalCount pg)%Z)
    ∧ (hasPrevPage pg = true ↔ (1 < pageNum)%Z)
    ∧ length logs
      = Z.to_nat
          (Z.min limitNum
             (Z.max 0 (totalCount pg - (pageNum - 1) * limitNum)))
    ∧ (limitNum = 20%Z → totalCount pg = 45%Z →
       totalPages pg = 3%Z
       ∧ (pageNum = 3%Z → length logs = 5 ∧ hasNextPage pg = false)
       ∧ (pageNum = 1%Z → hasPrevPage pg = false)).
Proof.
  intros pageNum limitNum Hpage Hlimit. unfold getLogs.
  fold pageNum limitNum.
  replace (pageNum <? 1)%Z with false by (symmetry; apply Z.ltb_ge; lia).
  replace (limitNum <? 1)%Z with false by (symmetry; apply Z.ltb_ge; lia).
  cbn [orb]. eexists _, _. split; [reflexivity|].
  cbn [currentPage limit totalCount totalPages hasNextPage hasPrevPage].
  set (total := countDocuments regexTest db (buildQuery (l_filters req))).
  set (pages := Js.Math_ceil (inject_Z total / inject_Z limitNum)).
  destruct (ceil_div_bounds total limitNum ltac:(lia)) as [Hlo Hhi].
  fold pages in Hlo, Hhi.
  assert (Hnext : (pageNum <? pages)%Z = true
                  ↔ (pageNum * limitNum < total)%Z).
  { rewrite Z.ltb_lt. split; intros H; nia. }
  assert (Hprev : (1 <? pageNum)%Z = true ↔ (1 < pageNum)%Z).
  { apply Z.ltb_lt. }
  assert (Hlen :
    length (take (Z.to_nat limitNum)
              (drop (Z.to_nat ((pageNum - 1) * limitNum))
                 (sortDocs (default "createdAt" (l_sortBy req))
                    (bool_decide
                       (default "desc" (l_sortOrder req) = "desc"))
                    (find regexTest db (buildQuery (l_filters req))))))
    = Z.to_nat
        (Z.min limitNum
           (Z.max 0 (total - (pageNum - 1) * limitNum)))).
  { rewrite length_take, length_drop.
    rewrite (Permutation_length (sortDocs_perm _ _ _)).
    subst total. unfold countDocuments.
    assert (0 ≤ (pageNum - 1) * limitNum)%Z by nia. lia. }
  split; [done|]. split; [done|]. split; [done|].
  split; [by split|]. split; [exact Hnext|]. split; [exact Hprev|].
  split; [exact Hlen|].
  intros H20 H45. split; [nia|]. split.
  - intros H3. split; [rewrite Hlen; lia|].
    apply not_true_is_false. rewrite Hnext. lia.
  - intros H1. apply not_true_is_false. rewrite Hprev. lia.
Qed.


(** C10. A bulk delete without usable [ids] whose [filters] object has
    none of the five fields runs [deleteMany({})]: every document of
    the collection is deleted and the reply carries their number. *)
Theorem deleteLogs_empty_filters_delete_all
    (db : gmap string t) (ids : option (list string)) :
  idsGiven ids = false →
  deleteLogs regexTest db
    (mkDelete ids (Some (mkFilters None None None None None)))
  = (ok (size db), ∅).
Proof.
  intros Hids. unfold deleteLogs; cbn [d_ids d_filters]. rewrite Hids.
  change (buildQuery (mkFilters None None None None None))
    with emptyQuery.
  unfold deleteMany, find; cbn [fst snd]. f_equal.
  - f_equal. rewrite filter_all by (intros kv; apply matches_empty).
    apply length_map_to_list.
  - apply map_empty. intros id. apply map_lookup_filter_None.
    right. intros e _. by rewrite matches_empty.
Qed.

End Facts.

(** *** Worked requests *)

Import Instances.

Lemma insertDoc_perm desc x l : insertDoc desc x l ≡ₚ x :: l.
Proof.
  induction l as [|y l IH]; [done|]. simpl.
  destruct (before desc x y); [done|].
  rewrite IH. apply Permutation_swap.
Qed.

Lemma sortDocs_perm field desc l : Instances.sortDocs field desc l ≡ₚ l.
Proof.
  unfold Instances.sortDocs. case_bool_decide; [|done].
  induction l as [|x l IH]; [done|]. simpl.
  by rewrite insertDoc_perm, IH.
Qed.

(** Page 3 of 45 entries by 20: three pages, five items, no next page. *)
Lemma getLogs_pagination_witness :
  (1 ≤ 3)%Z ∧ (1 ≤ 20)%Z
  ∧ ∃ logs pg,
      getLogs Instances.regexTest Instances.sortDocs (ledgerOf 45)
        (mkListing (Some 3%Z) None noFilters None None)
      = Some (ok (logs, pg))
      ∧ totalCount pg = 45%Z
      ∧ totalPages pg = 3%Z
      ∧ length logs = 5
      ∧ hasNextPage pg = false
      ∧ (hasPrevPage pg = true ↔ (1 < 3)%Z).
Proof.
  split; [lia|]. split; [lia|].
  destruct (getLogs_pagination Instances.regexTest Instances.sortDocs
              sortDocs_perm (ledgerOf 45)
              (mkListing (Some 3%Z) None noFilters None None))
    as (logs & pg & Hrun & _ & _ & Hcount & _ & _ & Hprev & _ & H45);
    [simpl; lia | simpl; lia |].
  assert (Htotal : totalCount pg = 45%Z)
    by (rewrite Hcount; vm_compute; reflexivity).
  destruct (H45 eq_refl Htotal) as (Hpages & Hpage3 & _).
  destruct (Hpage3 eq_refl) as [Hlen Hnext].
  exists logs, pg.
  split; [exact Hrun|]. split; [exact Htotal|]. split; [exact Hpages|].
  split; [exact Hlen|]. split; [exact Hnext|]. exact Hprev.
Defined.

(** The first page of the same listing: twenty items, a next page and
    no previous page. *)
Example getLogs_first_page :
  ∃ logs,
    getLogs Instances.regexTest Instances.sortDocs (ledgerOf 45)
      (mkListing (Some 1%Z) (Some 20%Z) noFilters None None)
    = Some (ok (logs, mkPagination 1 3 45 20 true false))
    ∧ length logs = 20.
Proof. eexists. split; [vm_compute; reflexivity | reflexivity]. Qed.



(** A request with neither is refused and the ledger is as it was. *)
Example deleteLogs_neither_supplied :
  deleteLogs Instances.regexTest (ledgerOf 3) (mkDelete None None)
  = (fail 400 "Either ids array or filters object is required",
     ledgerOf 3).
Proof. vm_compute. reflexivity. Qed.

(** [{ filters: {} }] empties a ledger of five entries. *)
Lemma deleteLogs_empty_filters_delete_all_witness :
  idsGiven None = false
  ∧ deleteLogs Instances.regexTest (ledgerOf 5)
      (mkDelete None (Some (mkFilters None None None None None)))
    = (ok 5, ∅).
Proof.
  split; [reflexivity|].
  rewrite (deleteLogs_empty_filters_delete_all Instances.regexTest
             (ledgerOf 5) None eq_refl).
  vm_compute. reflexivity.
Defined.

End RouteFacts.

(** ** The task routes together *)

Module TaskCrudFacts.

Import Task TaskCrud JsFacts.

Lemma findOne_None (db : gmap string t) id uid :
  (∀ task, db !! id = Some task → userId task ≠ uid) →
  findOne db id uid = None.
Proof.
  intros Hforeign. unfold findOne.
  destruct (db !! id) as [task|] eqn:E; [|done].
  case_bool_decide; [|done]. by destruct (Hforeign task eq_refl).
Qed.

Lemma findOne_Some (db : gmap string t) id uid task :
  findOne db id uid = Some task ↔ db !! id = Some task ∧ userId task = uid.
Proof.
  unfold findOne. split.
  - destruct (db !! id) as [x|]; [|done].
    case_bool_decide; [|done]. by intros [= ->].
  - intros [-> Huid]. by rewrite bool_decide_eq_true_2.
Qed.

Lemma clamped_bounds (q : Q) :
  (0 <= Instances.clamped q)%Q ∧ (Instances.clamped q <= 100)%Q.
Proof.
  unfold Instances.clamped.
  destruct (Qle_bool q 0) eqn:E0; [done|].
  apply Qle_bool_false in E0.
  destruct (Qle_bool q 100) eqn:E100.
  - apply Qle_bool_iff in E100. split; [by apply Qlt_le_weak|done].
  - done.
Qed.

Section Facts.

Variable schemaValid : t → bool.
Variable defaultStatus : Status.
Variable trim : string → string.
Variable regexTest : string → string → bool.
Variable sortTasks : list (string * t) → list (string * t).
Variable freshId : gmap string t → string.
Variable objectIdCall : string → bool.
Variable isObjectId : string → bool.
Hypothesis sortTasks_perm : ∀ l, sortTasks l ≡ₚ l.

(** What a successful progress write stored. *)
Lemma patchProgress_ok_inv (db db' : gmap string t) id uid v t' :
  patchProgress schemaValid db id uid v = (ok t', db') →
  ∃ task q,
    findOne db id uid = Some task
    ∧ Js.ToNumber v = Some q
    ∧ t' = (if Qeq_bool (Instances.clamped q) 100
            then with_status (with_progress task (Instances.clamped q))
                   complete
            else if negb (Qle_bool (Instances.clamped q) 0)
                    && bool_decide (status task = complete)
                 then with_status (with_progress task (Instances.clamped q))
                        incomplete
                 else with_progress task (Instances.clamped q))
    ∧ schemaValid t' = true
    ∧ db' = <[id := t']> db.
Proof.
  unfold patchProgress.
  destruct (Js.is_undefined v || _ || _) eqn:Hguard; [done|].
  destruct (findOne db id uid) as [task|]; [|done].
  destruct (Js.ToNumber v) as [q|] eqn:Hq; [|by destruct v].
  rewrite clamp_number. cbv zeta. unfold save.
  match goal with |- context [schemaValid ?x] =>
    destruct (schemaValid x) eqn:Hvalid; [|done] end.
  intros [= <- <-]. exists task, q. repeat split; done.
Qed.


(** X2. Deleting one's own task answers with the task and removes that
    document only; after it the task cannot be read and a second delete
    answers 404 without writing. *)
Theorem deleteTask_removes_one (db : gmap string t) id uid task :
  findOne db id uid = Some task →
  deleteTask db id uid = (ok task, delete id db)
  ∧ (∀ other, other ≠ id → delete id db !! other = db !! other)
  ∧ getTask (delete id db) id uid = fail 404 "Task not found"
  ∧ deleteTask (delete id db) id uid
    = (fail 404 "Task not found", delete id db).
Proof.
  intros Hfind. unfold deleteTask at 1. rewrite Hfind.
  split; [done|]. split.
  { intros other Hne. by rewrite lookup_delete_ne. }
  unfold getTask, deleteTask, findOne. by rewrite lookup_delete_eq.
Qed.

(** X3. [POST] answers 400 exactly when the title or the description is
    absent or empty, and a [POST] that fails, with any code, leaves the
    collection as it was. *)
Theorem postTask_failures (db : gmap string t) uid (body : postBody) :
  ((postTask schemaValid defaultStatus trim freshId db uid body).1
   = fail 400 "Title and description are required"
   ↔ given (p_title body) = false ∨ given (p_description body) = false)
  ∧ (∀ code message,
       (postTask schemaValid defaultStatus trim freshId db uid body).1
       = fail code message →
       (postTask schemaValid defaultStatus trim freshId db uid body).2 = db).
Proof.
  unfold postTask.
  destruct (given (p_title body)), (given (p_description body)); simpl;
    try (split; [split; [by auto | done] | done]).
  destruct (Js.ToNumber _) as [p|];
    [|split; [split; [done | by intros [|]] | done]].
  match goal with |- context [schemaValid ?x] =>
    destruct (schemaValid x) end; simpl.
  - split; [split; [done | by intros [|]] | done].
  - split; [split; [done | by intros [|]] | done].
Qed.

(** X4. A task created by [POST] is owned by the requester, holds the
    trimmed title and description, and can be read back by its owner;
    no task that existed is touched, and deleting the new task gives
    the collection back. *)
Theorem postTask_round_trip (db : gmap string t) uid (body : postBody)
    (ti de : string) (p : Q) :
  p_title body = Some ti → ti ≠ "" →
  p_description body = Some de → de ≠ "" →
  Js.ToNumber (if isTruthy (p_progress body) then p_progress body
               else Js.number 0) = Some p →
  db !! freshId db = None →
  let task :=
    mk uid (trim ti) (trim de) defaultStatus
       (default medium (p_priority body)) (p_dueDate body) p in
  schemaValid task = true →
  postTask schemaValid defaultStatus trim freshId db uid body
  = (ok (freshId db, task), <[freshId db := task]> db)
  ∧ getTask (<[freshId db := task]> db) (freshId db) uid = ok task
  ∧ (∀ id old, db !! id = Some old →
               <[freshId db := task]> db !! id = Some old)
  ∧ deleteTask (<[freshId db := task]> db) (freshId db) uid = (ok task, db).
Proof.
  intros Hti Hti' Hde Hde' Hp Hfresh task Hvalid.
  unfold postTask. rewrite Hti, Hde. unfold given.
  rewrite !bool_decide_eq_false_2 by done. simpl. rewrite Hp.
  fold task. rewrite Hvalid. split; [done|].
  assert (Hfind : findOne (<[freshId db := task]> db) (freshId db) uid
                  = Some task).
  { apply findOne_Some. by rewrite lookup_insert_eq. }
  unfold getTask, deleteTask. rewrite Hfind.
  split; [done|]. split.
  - intros id old Hold. rewrite lookup_insert_ne; [done|].
    intros <-. congruence.
  - f_equal. rewrite delete_insert_eq. by apply delete_id.
Qed.

Lemma findTasks_elem (db : gmap string t) q id task :
  (id, task) ∈ findTasks regexTest db q →
  db !! id = Some task ∧ userId task = tq_userId q.
Proof.
  unfold findTasks. intros [Hm Hin]%list_elem_of_filter.
  apply elem_of_map_to_list in Hin. split; [done|].
  unfold matchesTask in Hm. simpl in Hm.
  destruct (bool_decide (userId task = tq_userId q)) eqn:E; [|done].
  by apply bool_decide_eq_true in E.
Qed.

(** Every task is complete or incomplete. *)
Lemma complete_or_incomplete (l : list (string * t)) :
  length l
  = length (filter (λ kv, status kv.2 = complete) l)
    + length (filter (λ kv, status kv.2 = incomplete) l).
Proof.
  induction l as [|[id x] l IH]; [done|].
  rewrite !filter_cons. simpl.
  destruct (status x) eqn:E; repeat case_decide; try done; simpl; lia.
Qed.

Lemma findTasks_narrower (db : gmap string t) uid (q : listQuery) :
  length (findTasks regexTest db (buildTaskQuery uid q))
  ≤ length (findTasks regexTest db (mkTaskQuery uid None None None)).
Proof.
  unfold findTasks.
  induction (map_to_list db) as [|kv l IH]; [done|].
  rewrite !filter_cons.
  destruct (decide (matchesTask regexTest (buildTaskQuery uid q) kv = true))
    as [Hm|Hm].
  - rewrite decide_True; [simpl; lia|].
    unfold matchesTask in *. simpl in *.
    destruct (bool_decide (userId kv.2 = uid)); [done|].
    by rewrite !andb_false_l in Hm.
  - case_decide; simpl; lia.
Qed.

(** X5. The listing returns tasks of the requester only, each as it is
    stored; [total] is their number and is at most [counts.all]; and
    [counts.all] is the sum of [counts.complete] and
    [counts.incomplete]. *)
Theorem getTasks_own_tasks (db : gmap string t) uid (q : listQuery) :
  ∃ l,
    getTasks regexTest sortTasks db uid q = ok l
    ∧ (∀ id task, (id, task) ∈ tl_data l →
                  db !! id = Some task ∧ userId task = uid)
    ∧ tl_total l = length (tl_data l)
    ∧ tl_total l ≤ c_all (tl_counts l)
    ∧ c_all (tl_counts l)
      = c_complete (tl_counts l) + c_incomplete (tl_counts l).
Proof.
  eexists. split; [reflexivity|]. simpl. split; [|split; [done|split]].
  - intros id task Hin. rewrite (sortTasks_perm _) in Hin.
    by apply findTasks_elem in Hin.
  - rewrite (Permutation_length (sortTasks_perm _)).
    apply findTasks_narrower.
  - apply complete_or_incomplete.
Qed.

Lemma countIf_filter (P : t → bool) (Q : string * t → Prop)
    `{!∀ kv, Decision (Q kv)} (l : list (string * t)) :
  (∀ kv, P kv.2 = true ↔ Q kv) →
  countIf P l = length (filter Q l).
Proof.
  intros HPQ. unfold countIf. f_equal. by apply list_filter_iff.
Qed.

(** Every task has one of the three priorities. *)
Lemma three_priorities (l : list (string * t)) :
  length l
  = countIf (λ x, bool_decide (priorityName (priority x) = "high")) l
    + countIf (λ x, bool_decide (priorityName (priority x) = "medium")) l
    + countIf (λ x, bool_decide (priorityName (priority x) = "low")) l.
Proof.
  unfold countIf. induction l as [|[id x] l IH]; [done|].
  rewrite !filter_cons. simpl.
  destruct (priority x); simpl; repeat case_decide; try done; simpl; lia.
Qed.

Lemma findTasks_all_size (db : gmap string t) uid
    (P : string * t → Prop) `{!∀ kv, Decision (P kv)} :
  length (filter P (findTasks regexTest db (mkTaskQuery uid None None None)))
  = size (filter (λ kv, userId kv.2 = uid ∧ P kv) db).
Proof using regexTest.
  rewrite RouteFacts.size_filter_list. unfold findTasks.
  rewrite list_filter_filter. f_equal. apply list_filter_iff.
  intros kv. unfold matchesTask; simpl. rewrite !andb_true_r.
  rewrite bool_decide_eq_true.
  split; (intros [H1 H2]; split; [exact H2 | exact H1]).
Qed.

(** X6. The statistics summary.  When the call [ObjectId(userId)]
    without [new] throws, the route answers 500.  When it returns, each
    figure is a count over the collection: [total] the tasks of the
    user, [completed] and [incomplete] those with that status,
    [highPriority], [mediumPriority] and [lowPriority] those with that
    priority; the first three are the [counts] of the listing, the
    total is completed plus incomplete, and the sum of the three
    priority figures. *)
Theorem statsSummary_agrees_with_counts
    (db : gmap string t) uid (q : listQuery) :
  (objectIdCall uid = false →
   statsSummary regexTest objectIdCall db uid
   = fail 500 "Failed to retrieve task statistics")
  ∧ (objectIdCall uid = true →
     ∃ s l,
       statsSummary regexTest objectIdCall db uid = ok s
       ∧ getTasks regexTest sortTasks db uid q = ok l
       ∧ s_total s = size (filter (λ kv, userId kv.2 = uid) db)
       ∧ s_completed s
         = size (filter (λ kv, userId kv.2 = uid ∧ status kv.2 = complete)
                        db)
       ∧ s_incomplete s
         = size (filter (λ kv, userId kv.2 = uid ∧ status kv.2 = incomplete)
                        db)
       ∧ s_highPriority s
         = size (filter (λ kv, userId kv.2 = uid ∧ priority kv.2 = high) db)
       ∧ s_mediumPriority s
         = size (filter (λ kv, userId kv.2 = uid ∧ priority kv.2 = medium)
                        db)
       ∧ s_lowPriority s
         = size (filter (λ kv, userId kv.2 = uid ∧ priority kv.2 = low) db)
       ∧ s_total s = c_all (tl_counts l)
       ∧ s_completed s = c_complete (tl_counts l)
       ∧ s_incomplete s = c_incomplete (tl_counts l)
       ∧ s_total s = s_completed s + s_incomplete s
       ∧ s_total s = s_highPriority s + s_mediumPriority s + s_lowPriority s).
Proof using regexTest sortTasks objectIdCall.
  unfold statsSummary, getTasks.
  split; intros Hcall; rewrite Hcall; [reflexivity|]. cbn [negb].
  pose proof (findTasks_all_size db uid (λ _, True)) as Hall.
  rewrite RouteFacts.filter_all in Hall by done.
  pose proof (findTasks_all_size db uid (λ kv, status kv.2 = complete))
    as Hdone.
  pose proof (findTasks_all_size db uid (λ kv, status kv.2 = incomplete))
    as Hopen.
  pose proof (findTasks_all_size db uid (λ kv, priority kv.2 = high))
    as Hhigh.
  pose proof (findTasks_all_size db uid (λ kv, priority kv.2 = medium))
    as Hmedium.
  pose proof (findTasks_all_size db uid (λ kv, priority kv.2 = low))
    as Hlow.
  assert (Htotal : size (filter (λ kv : string * t, userId kv.2 = uid ∧ True)
                                db)
                   = size (filter (λ kv : string * t, userId kv.2 = uid) db)).
  { f_equal. apply map_filter_ext. intros i x _. simpl.
    split; [by intros [Hu _] | by intros Hu; split]. }
  rewrite Htotal in Hall. clear Htotal.
  set (docs := findTasks regexTest db (mkTaskQuery uid None None None))
    in Hall, Hdone, Hopen, Hhigh, Hmedium, Hlow |- *.
  assert (Hc : countIf (λ x, bool_decide (status x = complete)) docs
               = length (filter (λ kv, status kv.2 = complete) docs)).
  { apply countIf_filter. intros kv. apply bool_decide_eq_true. }
  assert (Hi : countIf (λ x, bool_decide (status x = incomplete)) docs
               = length (filter (λ kv, status kv.2 = incomplete) docs)).
  { apply countIf_filter. intros kv. apply bool_decide_eq_true. }
  assert (Hh : countIf (λ x, bool_decide (priorityName (priority x) = "high"))
                 docs
               = length (filter (λ kv, priority kv.2 = high) docs)).
  { apply countIf_filter. intros kv. rewrite bool_decide_eq_true.
    by destruct (priority kv.2). }
  assert (Hm : countIf
                 (λ x, bool_decide (priorityName (priority x) = "medium"))
                 docs
               = length (filter (λ kv, priority kv.2 = medium) docs)).
  { apply countIf_filter. intros kv. rewrite bool_decide_eq_true.
    by destruct (priority kv.2). }
  assert (Hl : countIf (λ x, bool_decide (priorityName (priority x) = "low"))
                 docs
               = length (filter (λ kv, priority kv.2 = low) docs)).
  { apply countIf_filter. intros kv. rewrite bool_decide_eq_true.
    by destruct (priority kv.2). }
  pose proof (complete_or_incomplete docs) as Hsum.
  pose proof (three_priorities docs) as Hprio.
  rewrite Hh, Hm, Hl in Hprio.
  clearbody docs. destruct docs as [|kv rest].
  - eexists _, _. split; [reflexivity|]. split; [reflexivity|].
    cbn [s_total s_completed s_incomplete s_highPriority s_mediumPriority
         s_lowPriority c_all c_complete c_incomplete tl_counts].
    simpl in Hall, Hdone, Hopen, Hhigh, Hmedium, Hlow.
    rewrite <- Hall, <- Hdone, <- Hopen, <- Hhigh, <- Hmedium, <- Hlow.
    repeat split; done.
  - eexists _, _. split; [reflexivity|]. split; [reflexivity|].
    cbn [s_total s_completed s_incomplete s_highPriority s_mediumPriority
         s_lowPriority c_all c_complete c_incomplete tl_counts].
    rewrite Hh, Hm, Hl, Hc, Hi.
    rewrite <- Hall, <- Hdone, <- Hopen, <- Hhigh, <- Hmedium, <- Hlow.
    repeat split; done.
Qed.

(** X7. Whatever value the progress route accepts, the task it stores
    has a progress within [0,100], is complete when that progress is
    100 and incomplete when it is above 0 and not 100, belongs to the
    requester, and is the document now held under the id. *)
Theorem patchProgress_postcondition
    (db db' : gmap string t) id uid (v : Js.value) t' :
  patchProgress schemaValid db id uid v = (ok t', db') →
  (0 <= progress t')%Q ∧ (progress t' <= 100)%Q
  ∧ ((progress t' == 100)%Q → status t' = complete)
  ∧ ((0 < progress t')%Q → ¬ (progress t' == 100)%Q →
     status t' = incomplete)
  ∧ userId t' = uid
  ∧ db' !! id = Some t'.
Proof.
  intros (task & q & Hfind & Hq & Ht & Hvalid & ->)%patchProgress_ok_inv.
  apply findOne_Some in Hfind as [_ Huid].
  destruct (clamped_bounds q) as [Hlo Hhi].
  assert (Hprog : progress t' = Instances.clamped q).
  { rewrite Ht. destruct (Qeq_bool _ _); [done|]. by destruct (_ && _). }
  assert (Howner : userId t' = userId task).
  { rewrite Ht. destruct (Qeq_bool _ _); [done|]. by destruct (_ && _). }
  rewrite Hprog, Howner, lookup_insert_eq.
  split; [done|]. split; [done|]. split; [|split; [|done]].
  - intros H100%Qeq_bool_iff. by rewrite Ht, H100.
  - intros Hpos Hnot. rewrite Ht.
    destruct (Qeq_bool (Instances.clamped q) 100) eqn:E.
    { by apply Qeq_bool_iff in E. }
    apply Qle_bool_false in Hpos. rewrite Hpos. simpl.
    case_bool_decide as Hs; [done|]. simpl. by destruct (status task).
Qed.

(** X8. Sending the same progress twice is the same as sending it once:
    the second request answers with the same task and leaves the
    collection as the first one left it. *)
Theorem patchProgress_idempotent
    (db db' : gmap string t) id uid (v : Js.value) t' :
  patchProgress schemaValid db id uid v = (ok t', db') →
  patchProgress schemaValid db' id uid v = (ok t', db').
Proof.
  intros Hrun.
  destruct (patchProgress_ok_inv _ _ _ _ _ _ Hrun)
    as (task & q & Hfind & Hq & Ht & Hvalid & ->).
  apply findOne_Some in Hfind as [_ Huid].
  revert Hrun. unfold patchProgress.
  destruct (Js.is_undefined v || _ || _); [done|]. intros _.
  assert (Hfind' : findOne (<[id := t']> db) id uid = Some t').
  { apply findOne_Some. rewrite lookup_insert_eq. split; [done|].
    rewrite Ht. destruct (Qeq_bool _ _); [done|]. by destruct (_ && _). }
  rewrite Hfind', Hq, clamp_number. cbv zeta.
  assert (Hsame :
    (if Js.eqb (Some (progress (with_progress t' (Instances.clamped q))))
               (Some 100%Q)
     then with_status (with_progress t' (Instances.clamped q)) complete
     else if Js.gtb (Some (progress (with_progress t' (Instances.clamped q))))
                    (Some 0%Q)
             && bool_decide
                  (status (with_progress t' (Instances.clamped q)) = complete)
          then with_status (with_progress t' (Instances.clamped q)) incomplete
          else with_progress t' (Instances.clamped q)) = t').
  { unfold Js.eqb, Js.gtb, Js.ltb. cbn [with_progress progress status].
    rewrite Ht.
    destruct (Qeq_bool (Instances.clamped q) 100);
      [by destruct task|].
    destruct (negb (Qle_bool (Instances.clamped q) 0));
      destruct task as [u ti de [] pr du pg]; reflexivity. }
  rewrite Hsame. unfold save. rewrite Hvalid.
  by rewrite insert_insert_eq.
Qed.

(** X9. A successful [PUT] never changes the owner of the task, writes
    the document under the same id and touches no other task, and a
    supplied progress is stored within [0,100]. *)
Theorem put_keeps_owner_and_range
    (db db' : gmap string t) id uid (body : putBody) t' :
  put schemaValid trim db id uid body = (ok t', db') →
  userId t' = uid
  ∧ db' = <[id := t']> db
  ∧ (∀ other, other ≠ id → db' !! other = db !! other)
  ∧ (b_progress body ≠ Js.undefined →
     (0 <= progress t')%Q ∧ (progress t' <= 100)%Q).
Proof.
  unfold put. destruct (findOne db id uid) as [task|] eqn:Hfind; [|done].
  apply findOne_Some in Hfind as [_ Huid].
  destruct (b_progress body) as [| |b|q] eqn:Hv; cbn [Js.is_undefined].
  - unfold save.
    match goal with |- context [schemaValid ?x] =>
      destruct (schemaValid x); [|done] end.
    intros [= <- <-]. split; [done|]. split; [done|].
    split; [|done]. intros other Hne. by rewrite lookup_insert_ne.
  - cbn [Js.ToNumber]. rewrite clamp_number. unfold save.
    match goal with |- context [schemaValid ?x] =>
      destruct (schemaValid x); [|done] end.
    intros [= <- <-]. split; [done|]. split; [done|].
    split; [intros other Hne; by rewrite lookup_insert_ne|].
    intros _. apply clamped_bounds.
  - cbn [Js.ToNumber]. rewrite clamp_number. unfold save.
    match goal with |- context [schemaValid ?x] =>
      destruct (schemaValid x); [|done] end.
    intros [= <- <-]. split; [done|]. split; [done|].
    split; [intros other Hne; by rewrite lookup_insert_ne|].
    intros _. apply clamped_bounds.
  - cbn [Js.ToNumber]. rewrite clamp_number. unfold save.
    match goal with |- context [schemaValid ?x] =>
      destruct (schemaValid x); [|done] end.
    intros [= <- <-]. split; [done|]. split; [done|].
    split; [intros other Hne; by rewrite lookup_insert_ne|].
    intros _. apply clamped_bounds.
Qed.

End Facts.

End TaskCrudFacts.

(** ** The life of a ledger entry *)

Module LedgerLifeFacts.

Import UserLog LedgerLogin JsFacts LedgerFacts.

Lemma open_login_is_active uid tok e :
  isOpenLogin uid tok e = true →
  jwtTokenId e = Some tok ∧ status e = active ∧ userId e = uid
  ∧ action e = login.
Proof.
  unfold isOpenLogin. intros H.
  repeat (apply andb_true_iff in H as [H ?]).
  repeat match goal with
  | Hb : bool_decide _ = true |- _ => apply bool_decide_eq_true in Hb
  end. done.
Qed.

Lemma active_token_iff tok e :
  isActiveToken tok e = true ↔ jwtTokenId e = Some tok ∧ status e = active.
Proof.
  unfold isActiveToken. rewrite andb_true_iff, !bool_decide_eq_true. done.
Qed.

(** X10. An entry that is [expired] or [logged_out] is never changed
    again: neither a logout of any subject and token nor the expiry of
    any token writes to it. *)
Theorem terminal_entries_are_final
    (db : gmap string t) id e (now savedAt : Z) (uid tok : string) :
  db !! id = Some e → status e ≠ active →
  (createLogoutLog db now savedAt uid tok).2 !! id = Some e
  ∧ (markTokenExpired db now tok).2 !! id = Some e.
Proof.
  intros Hlook Hterminal. split.
  - apply createLogoutLog_frame; [done|].
    destruct (isOpenLogin uid tok e) eqn:E; [|done].
    by apply open_login_is_active in E as (_ & ? & _).
  - unfold markTokenExpired; cbn [snd]. rewrite lookup_fmap, Hlook. simpl.
    destruct (isActiveToken tok e) eqn:E; [|done].
    by apply active_token_iff in E as [_ ?].
Qed.

(** X11. After the expiry of a token a logout under that token, for
    any subject, finds nothing to close: it returns [null] and changes
    nothing. *)
Theorem logout_after_expiry_is_noop
    (db : gmap string t) (expiredAt now savedAt : Z) (uid tok : string) :
  createLogoutLog (markTokenExpired db expiredAt tok).2 now savedAt uid tok
  = (None, (markTokenExpired db expiredAt tok).2).
Proof.
  unfold createLogoutLog.
  assert (Hnone :
    findLatest (isOpenLogin uid tok) (markTokenExpired db expiredAt tok).2
    = None).
  { apply findLatest_None. intros id e'. unfold markTokenExpired; cbn [snd].
    rewrite lookup_fmap. destruct (db !! id) as [e|]; [|done].
    intros [= <-].
    destruct (isActiveToken tok e) eqn:E.
    - unfold isOpenLogin. apply andb_false_iff. right.
      by apply bool_decide_eq_false_2.
    - destruct (isOpenLogin uid tok e) eqn:Hopen; [|done].
      apply open_login_is_active in Hopen as (Htok & Hactive & _).
      assert (isActiveToken tok e = true) by by apply active_token_iff.
      congruence. }
  by rewrite Hnone.
Qed.

(** X12. The expiry keeps the set of entries (none is added or
    removed), leaves no active entry under the token, and its count of
    changed documents is 0 exactly when the ledger is unchanged. *)
Theorem markTokenExpired_count (db : gmap string t) (now : Z) (tok : string) :
  size (markTokenExpired db now tok).2 = size db
  ∧ (∀ id e, (markTokenExpired db now tok).2 !! id = Some e →
             ¬ (jwtTokenId e = Some tok ∧ status e = active))
  ∧ ((markTokenExpired db now tok).1 = 0
     ↔ (markTokenExpired db now tok).2 = db).
Proof.
  unfold markTokenExpired; cbn [fst snd]. split; [apply map_size_fmap|].
  split.
  - intros id e'. rewrite lookup_fmap.
    destruct (db !! id) as [e|]; [|done]. intros [= <-].
    destruct (isActiveToken tok e) eqn:E.
    + intros [_ Hactive]. done.
    + intros Hboth%active_token_iff. congruence.
  - rewrite map_size_empty_iff, map_empty. split.
    + intros Hnone. apply map_eq. intros id. rewrite lookup_fmap.
      destruct (db !! id) as [e|] eqn:Hlook; [|done]. simpl. f_equal.
      destruct (isActiveToken tok e) eqn:E; [|done].
      specialize (Hnone id).
      apply map_lookup_filter_None in Hnone as [Hnone|Hnone]; [congruence|].
      by destruct (Hnone e Hlook).
    + intros Hsame id. apply map_lookup_filter_None. right.
      intros e Hlook Hmatch. simpl in Hmatch.
      assert (Hfix : ((λ e, if isActiveToken tok e then expire e now else e)
                      <$> db) !! id = Some e) by by rewrite Hsame.
      rewrite lookup_fmap, Hlook in Hfix. simpl in Hfix.
      rewrite Hmatch in Hfix. injection Hfix as Hfix.
      apply active_token_iff in Hmatch as [_ Hactive].
      rewrite <- Hfix in Hactive. done.
Qed.

Section Create.

Variable trim : string → string.
Variable freshId : gmap string t → string.

(** X13. [createLoginLog] either throws the schema's messages and
    leaves the ledger as it was, or adds exactly one entry: an active
    login stamped with the login time, without logout time or duration,
    with a non-empty name and email; every entry that existed is still
    there unchanged. *)
Theorem createLoginLog_outcome
    (db : gmap string t) (now created savedAt : Z) (u : userData)
    (ip agent tok : option string) :
  db !! freshId db = None →
  match createLoginLog trim freshId db now created savedAt u ip agent tok with
  | (returned (id, doc), db') =>
    id = freshId db
    ∧ db' !! id = Some doc
    ∧ size db' = S (size db)
    ∧ (∀ i e, db !! i = Some e → db' !! i = Some e)
    ∧ action doc = login ∧ status doc = active
    ∧ userId doc = ud_userId u ∧ jwtTokenId doc = tok
    ∧ loginTime doc = Some now
    ∧ logoutTime doc = None ∧ sessionDuration doc = None
    ∧ userName doc ≠ "" ∧ email doc ≠ ""
  | (thrown messages, db') => db' = db ∧ messages ≠ []
  end.
Proof.
  intros Hfresh. unfold createLoginLog.
  set (name := trim _). set (mail := trim (ud_email u)).
  destruct (requiredErrors name mail) as [|m ms] eqn:E; [|done].
  assert (Hname : name ≠ "" ∧ mail ≠ "").
  { unfold requiredErrors in E.
    repeat case_bool_decide; simplify_eq/=; done. }
  destruct Hname as [Hname Hmail].
  split; [done|]. split; [apply lookup_insert_eq|].
  split; [by apply map_size_insert_None|].
  split; [|done].
  intros i e Hlook. rewrite lookup_insert_ne; [done|]. intros <-. congruence.
Qed.

(** X14. A login under a token no entry carries yet, followed by a
    logout of the same subject and token, closes exactly the entry the
    login created: it becomes [logged_out] with the logout time and a
    duration of the elapsed time rounded to whole minutes, halves up. *)
Theorem login_then_logout
    (db db1 : gmap string t) (now created savedAt : Z) (u : userData)
    (ip agent : option string) (tok : string) id doc
    (logoutAt savedAt2 : Z) :
  db !! freshId db = None →
  (∀ i e, db !! i = Some e → jwtTokenId e ≠ Some tok) →
  createLoginLog trim freshId db now created savedAt u ip agent (Some tok)
  = (returned (id, doc), db1) →
  let closed :=
    close doc logoutAt ((logoutAt - now + 30000) / 60000)%Z savedAt2 in
  createLogoutLog db1 logoutAt savedAt2 (ud_userId u) tok
  = (Some closed, <[id := closed]> db1)
  ∧ status closed = logged_out
  ∧ (∀ i e, db !! i = Some e → <[id := closed]> db1 !! i = Some e).
Proof.
  intros Hfresh Htok Hlogin closed. revert Hlogin. unfold createLoginLog.
  destruct (requiredErrors _ _); [|done]. intros [= <- <- <-].
  set (doc := mk _ _ _ _ _ _ _ _ _ _ _ _ _ _) in *.
  set (db1 := <[freshId db := doc]> db).
  assert (Hopen : isOpenLogin (ud_userId u) tok doc = true).
  { unfold isOpenLogin. by rewrite !bool_decide_eq_true_2. }
  assert (Hfound : findLatest (isOpenLogin (ud_userId u) tok) db1
                   = Some (freshId db, doc)).
  { destruct (findLatest _ db1) as [[i e]|] eqn:E.
    - apply findLatest_Some in E as (Hlook & He & _).
      destruct (decide (i = freshId db)) as [->|Hne].
      + subst db1. rewrite lookup_insert_eq in Hlook. congruence.
      + subst db1. rewrite lookup_insert_ne in Hlook by done.
        apply open_login_is_active in He as (He & _).
        by destruct (Htok _ _ Hlook).
    - pose proof (proj1 (findLatest_None _ _) E (freshId db) doc) as Hno.
      subst db1. rewrite lookup_insert_eq in Hno.
      specialize (Hno eq_refl). congruence. }
  unfold createLogoutLog. rewrite Hfound.
  unfold minutesBetween. cbn [loginTime doc default].
  rewrite round_minutes. fold closed.
  split; [done|]. split; [done|].
  intros i e Hlook. subst db1.
  rewrite !lookup_insert_ne; [done|intros <-; congruence..].
Qed.

End Create.

End LedgerLifeFacts.

(** ** The admin routes together *)

Module AdminFacts.

Import UserLog UserLogRoutes UserLogAdmin LedgerFacts RouteFacts.

(** *** Counting over a collection with one document replaced *)

Lemma count_after_replace (P : string * t → Prop) `{!∀ kv, Decision (P kv)}
    (db : gmap string t) id e e' :
  db !! id = Some e → (P (id, e) ↔ P (id, e')) →
  length (filter P (map_to_list (<[id := e']> db)))
  = length (filter P (map_to_list db)).
Proof.
  intros Hlook Hsame.
  rewrite <- (insert_delete_id db id e Hlook) at 2.
  rewrite <- (insert_delete_eq db id e').
  rewrite !(Permutation_length
              (filter_Permutation P _ _
                 (map_to_list_insert _ _ _ (lookup_delete_eq db id)))).
  rewrite !filter_cons. repeat case_decide; simpl; tauto || done.
Qed.

(** The fields of the statistics, without the case split on an empty
    group. *)
Lemma getStats_fields (db : gmap string t) (sevenDaysAgo : Z)
    (startDate endDate : option Z) :
  let docs :=
    filter (λ kv, inDates (dateFilter startDate endDate) kv = true)
           (map_to_list db) in
  let recent :=
    match dateFilter startDate endDate with
    | Some r => Some r
    | None => Some (Some sevenDaysAgo, None)
    end in
  ∃ st,
    getStats db sevenDaysAgo startDate endDate = ok st
    ∧ totalLogs st = length docs
    ∧ totalLogins st
      = countIf (λ e, bool_decide (actionName (action e) = "login")) docs
    ∧ totalLogouts st
      = countIf (λ e, bool_decide (actionName (action e) = "logout")) docs
    ∧ failedLogins st
      = countIf (λ e, bool_decide (actionName (action e) = "failed_login"))
          docs
    ∧ adminLogs st
      = countIf (λ e, bool_decide (roleName (role e) = "admin")) docs
    ∧ userLogs st
      = countIf (λ e, bool_decide (roleName (role e) = "user")) docs
    ∧ averageSessionDuration st
      = match docs with
        | [] => Some 0%Q
        | _ :: _ => avg (omap (λ kv, positiveDuration kv.2) docs)
        end
    ∧ recentActivity st
      = length (filter (λ kv, inDates recent kv = true) (map_to_list db)).
Proof.
  intros docs recent. unfold getStats. fold docs. fold recent.
  clearbody docs. destruct docs as [|kv rest].
  - eexists. split; [reflexivity|]. repeat split.
  - eexists. split; [reflexivity|]. repeat split.
Qed.

Lemma roles_partition (l : list (string * t)) :
  length l
  = countIf (λ e, bool_decide (roleName (role e) = "admin")) l
    + countIf (λ e, bool_decide (roleName (role e) = "user")) l.
Proof.
  unfold countIf. induction l as [|[id x] l IH]; [done|].
  rewrite !filter_cons. simpl.
  destruct (role x); simpl; repeat case_decide; try done; simpl; lia.
Qed.

Lemma actions_bound (l : list (string * t)) :
  countIf (λ e, bool_decide (actionName (action e) = "login")) l
  + countIf (λ e, bool_decide (actionName (action e) = "logout")) l
  + countIf (λ e, bool_decide (actionName (action e) = "failed_login")) l
  ≤ length l.
Proof.
  unfold countIf. induction l as [|[id x] l IH]; [done|].
  rewrite !filter_cons. simpl.
  destruct (action x); simpl; repeat case_decide; try done; simpl; lia.
Qed.

(** X15. In the statistics every entry counts as an admin or as a user
    entry, so [totalLogs] is [adminLogs + userLogs]; logins, logouts and
    failed logins together never exceed [totalLogs]. *)
Theorem getStats_counts (db : gmap string t) (sevenDaysAgo : Z)
    (startDate endDate : option Z) :
  ∃ st,
    getStats db sevenDaysAgo startDate endDate = ok st
    ∧ totalLogs st = adminLogs st + userLogs st
    ∧ totalLogins st + totalLogouts st + failedLogins st ≤ totalLogs st.
Proof.
  destruct (getStats_fields db sevenDaysAgo startDate endDate)
    as (st & Hrun & Ht & Hli & Hlo & Hf & Ha & Hu & _).
  exists st. split; [done|].
  rewrite Ht, Hli, Hlo, Hf, Ha, Hu.
  split; [apply roles_partition | apply actions_bound].
Qed.

(** X16. When a start or end date is supplied, [recentActivity] is not
    a seven-day figure: the date range replaces the seven-day bound and
    [recentActivity] equals [totalLogs], whatever the clock. *)
Theorem getStats_recent_with_dates (db : gmap string t) (sevenDaysAgo : Z)
    (startDate endDate : option Z) :
  is_Some startDate ∨ is_Some endDate →
  ∃ st,
    getStats db sevenDaysAgo startDate endDate = ok st
    ∧ recentActivity st = totalLogs st.
Proof.
  intros Hdates.
  destruct (getStats_fields db sevenDaysAgo startDate endDate)
    as (st & Hrun & Ht & _ & _ & _ & _ & _ & _ & Hr).
  exists st. split; [done|]. rewrite Ht, Hr.
  destruct startDate, endDate; try done.
  destruct Hdates as [[? [=]]|[? [=]]].
Qed.

(** Without dates it counts the entries created since the bound. *)
Lemma getStats_recent_without_dates (db : gmap string t) (sevenDaysAgo : Z) :
  ∃ st,
    getStats db sevenDaysAgo None None = ok st
    ∧ recentActivity st
      = length (filter (λ kv, (sevenDaysAgo ≤ createdAt kv.2)%Z)
                       (map_to_list db)).
Proof.
  destruct (getStats_fields db sevenDaysAgo None None)
    as (st & Hrun & _ & _ & _ & _ & _ & _ & _ & Hr).
  exists st. split; [done|]. rewrite Hr. simpl. f_equal.
  apply list_filter_iff. intros kv. unfold inDates, inRange. simpl.
  rewrite andb_true_r. apply Z.leb_le.
Qed.

Lemma positive_durations (l : list (string * t)) d :
  d ∈ omap (λ kv : string * t, positiveDuration kv.2) l → (1 ≤ d)%Z.
Proof.
  intros (kv & _ & Hd)%list_elem_of_omap. unfold positiveDuration in Hd.
  destruct (sessionDuration kv.2) as [x|]; [|done].
  destruct (Z.ltb_spec 0 x); [|done]. injection Hd as <-. lia.
Qed.

Lemma sum_at_least_length (l : list Z) :
  (∀ d, d ∈ l → (1 ≤ d)%Z) → (Z.of_nat (length l) ≤ foldr Z.add 0 l)%Z.
Proof.
  induction l as [|d l IH]; intros Hall; [done|]. simpl.
  assert (1 ≤ d)%Z by (apply Hall; by left).
  assert (Z.of_nat (length l) ≤ foldr Z.add 0 l)%Z
    by (apply IH; intros x Hx; apply Hall; by right).
  lia.
Qed.

Lemma avg_at_least_one (l : list Z) (q : Q) :
  (∀ d, d ∈ l → (1 ≤ d)%Z) → avg l = Some q → (1 <= q)%Q.
Proof.
  intros Hall. pose proof (sum_at_least_length l Hall) as Hsum.
  destruct l as [|d l]; [done|]. intros [= <-].
  apply Qle_shift_div_l.
  - rewrite <- (Zlt_Qlt 0). simpl length. lia.
  - rewrite Qmult_1_l, <- Zle_Qle. done.
Qed.

(** X17. [averageSessionDuration] is 0 when no entry falls in the date
    range; with entries in range it is [null] when none of them has a
    duration above 0 (open sessions, and durations of 0 or below, are
    left out of the mean); and when one of them has, it is the sum of
    the durations above 0 divided by their number, which is at least
    1. *)
Theorem getStats_average (db : gmap string t) (sevenDaysAgo : Z)
    (startDate endDate : option Z) :
  let docs :=
    filter (λ kv, inDates (dateFilter startDate endDate) kv = true)
           (map_to_list db) in
  let durations :=
    omap (λ kv : string * t,
            match sessionDuration kv.2 with
            | Some d => if (0 <? d)%Z then Some d else None
            | None => None
            end) docs in
  ∃ st,
    getStats db sevenDaysAgo startDate endDate = ok st
    ∧ (docs = [] → averageSessionDuration st = Some 0%Q)
    ∧ (docs ≠ [] →
       (∀ kv d, kv ∈ docs → sessionDuration kv.2 = Some d → (d ≤ 0)%Z) →
       averageSessionDuration st = None)
    ∧ (docs ≠ [] → ∀ q, averageSessionDuration st = Some q → (1 <= q)%Q)
    ∧ (∀ kv d, kv ∈ docs → sessionDuration kv.2 = Some d → (0 < d)%Z →
       durations ≠ []
       ∧ averageSessionDuration st
         = Some (inject_Z (foldr Z.add 0%Z durations)
                 / inject_Z (Z.of_nat (length durations)))%Q
       ∧ (1 <= inject_Z (foldr Z.add 0%Z durations)
               / inject_Z (Z.of_nat (length durations)))%Q).
Proof.
  intros docs durations.
  destruct (getStats_fields db sevenDaysAgo startDate endDate)
    as (st & Hrun & _ & _ & _ & _ & _ & _ & Havg & _).
  fold docs in Havg. exists st. split; [done|].
  change (omap (λ kv : string * t, positiveDuration kv.2) docs)
    with durations in Havg.
  assert (Hpos : ∀ d, d ∈ durations → (1 ≤ d)%Z)
    by (intros d Hd; by eapply positive_durations).
  assert (Hin : ∀ kv d, kv ∈ docs → sessionDuration kv.2 = Some d →
                        (0 < d)%Z → d ∈ durations).
  { intros kv d Hkv Hd Hlt. apply list_elem_of_omap. exists kv.
    split; [exact Hkv|]. rewrite Hd.
    by destruct (Z.ltb_spec 0 d); [|lia]. }
  assert (Hrev : ∀ d, d ∈ durations →
                       ∃ kv, kv ∈ docs ∧ sessionDuration kv.2 = Some d
                             ∧ (0 < d)%Z).
  { intros d (kv & Hkv & Hd)%list_elem_of_omap. exists kv.
    split; [exact Hkv|]. simpl in Hd.
    destruct (sessionDuration kv.2) as [y|]; [|done].
    destruct (Z.ltb_spec 0 y); [|done]. injection Hd as <-. done. }
  rewrite Havg. clearbody durations. clearbody docs.
  destruct docs as [|kv rest].
  { split; [done|]. split; [done|]. split; [done|].
    intros kv d Hkv. by apply elem_of_nil in Hkv. }
  split; [done|]. split; [|split].
  - intros _ Hnone.
    destruct durations as [|d ds]; [done|].
    destruct (Hrev d) as (x & Hx & Hd & Hlt); [by left|].
    specialize (Hnone x d Hx Hd). lia.
  - intros _ q Hq. by eapply avg_at_least_one.
  - intros x d Hx Hd Hlt. pose proof (Hin x d Hx Hd Hlt) as Hmem.
    destruct durations as [|d0 ds]; [by apply elem_of_nil in Hmem|].
    split; [done|]. split; [reflexivity|].
    by apply (avg_at_least_one (d0 :: ds)).
Qed.

(** X18. Closing a session changes none of the counts of the
    statistics: after [createLogoutLog] the totals of logs, logins,
    logouts, failed logins, admin and user entries and the recent
    activity are what they were; in particular [totalLogouts] does not
    grow. *)
Theorem logout_keeps_stats_counts
    (db db' : gmap string t) (now savedAt : Z) (uid tok : string) closed
    (sevenDaysAgo : Z) (startDate endDate : option Z) :
  createLogoutLog db now savedAt uid tok = (Some closed, db') →
  ∃ st st',
    getStats db sevenDaysAgo startDate endDate = ok st
    ∧ getStats db' sevenDaysAgo startDate endDate = ok st'
    ∧ totalLogs st' = totalLogs st
    ∧ totalLogins st' = totalLogins st
    ∧ totalLogouts st' = totalLogouts st
    ∧ failedLogins st' = failedLogins st
    ∧ adminLogs st' = adminLogs st
    ∧ userLogs st' = userLogs st
    ∧ recentActivity st' = recentActivity st.
Proof.
  unfold createLogoutLog.
  destruct (findLatest _ db) as [[id e]|] eqn:E; [|done].
  apply findLatest_Some in E as (Hlook & _ & _). intros [= <- <-].
  destruct (getStats_fields db sevenDaysAgo startDate endDate)
    as (st & Hrun & Ht & Hli & Hlo & Hf & Ha & Hu & _ & Hr).
  destruct (getStats_fields
              (<[id := close e now (minutesBetween (loginTime e) now) savedAt]>
                 db) sevenDaysAgo startDate endDate)
    as (st' & Hrun' & Ht' & Hli' & Hlo' & Hf' & Ha' & Hu' & _ & Hr').
  exists st, st'. split; [done|]. split; [done|].
  rewrite Ht, Hli, Hlo, Hf, Ha, Hu, Hr, Ht', Hli', Hlo', Hf', Ha', Hu', Hr'.
  unfold countIf. rewrite !list_filter_filter.
  repeat split;
    (apply (count_after_replace _ db id e); [exact Hlook | reflexivity]).
Qed.


Section Facts.

Variable regexTest : string → string → bool.
Variable sortDocs : string → bool → list (string * t) → list (string * t).
Hypothesis sortDocs_perm : ∀ field desc l, sortDocs field desc l ≡ₚ l.

(** What [deleteMany] leaves matches the query nowhere. *)
Lemma deleteMany_leaves_none (db : gmap string t) q :
  find regexTest (deleteMany regexTest db q).2 q = [].
Proof.
  unfold find, deleteMany; cbn [snd]. apply nil_length_inv.
  destruct (filter _ (map_to_list (filter _ db))) as [|kv l] eqn:E; [done|].
  assert (Hin : kv ∈ filter (λ kv, matches regexTest q kv = true)
                       (map_to_list
                          (filter (λ kv, matches regexTest q kv = false) db)))
    by (rewrite E; by left).
  apply list_elem_of_filter in Hin as [Hyes Hin]. destruct kv as [i e].
  apply elem_of_map_to_list, map_lookup_filter_Some in Hin as [_ Hno].
  simpl in *. congruence.
Qed.

Lemma deleteMany_twice (db : gmap string t) q :
  deleteMany regexTest (deleteMany regexTest db q).2 q
  = (0, (deleteMany regexTest db q).2).
Proof.
  unfold deleteMany at 1. rewrite deleteMany_leaves_none. f_equal.
  apply map_filter_id. intros i e Hlook.
  unfold deleteMany in Hlook; cbn [snd] in Hlook.
  by apply map_lookup_filter_Some in Hlook as [_ ?].
Qed.

(** X20. A bulk delete that succeeded, by ids or by filters, deletes
    nothing when it is sent again: the second answer is a count of 0
    and the ledger stays as the first one left it. *)
Theorem deleteLogs_twice (db db' : gmap string t) (body : deleteBody) n :
  deleteLogs regexTest db body = (ok n, db') →
  deleteLogs regexTest db' body = (ok 0, db').
Proof.
  unfold deleteLogs. cbv zeta. destruct (idsGiven (d_ids body)).
  - pose proof (deleteMany_twice db
                  (mkQuery (d_ids body) None None None None)) as Htwice.
    destruct (deleteMany regexTest db _) as [k m]. cbn [fst snd] in *.
    intros [= <- <-]. by rewrite Htwice.
  - destruct (d_filters body) as [f|]; [|done].
    pose proof (deleteMany_twice db (buildQuery f)) as Htwice.
    destruct (deleteMany regexTest db _) as [k m]. cbn [fst snd] in *.
    intros [= <- <-]. by rewrite Htwice.
Qed.

(** X21. A bulk delete by filters removes what the listing with the
    same filters counts: its [deletedCount] is the listing's
    [totalCount] before, and after it the same listing is empty, with
    no page and no next page. *)
Theorem deleteLogs_by_filters_empties_listing
    (db db' : gmap string t) (ids : option (list string)) (req : listing) n :
  idsGiven ids = false →
  (1 ≤ default 1 (l_page req))%Z → (1 ≤ default 20 (l_limit req))%Z →
  deleteLogs regexTest db (mkDelete ids (Some (l_filters req))) = (ok n, db') →
  ∃ logs pg pg',
    getLogs regexTest sortDocs db req = Some (ok (logs, pg))
    ∧ totalCount pg = Z.of_nat n
    ∧ getLogs regexTest sortDocs db' req = Some (ok ([], pg'))
    ∧ totalCount pg' = 0%Z
    ∧ totalPages pg' = 0%Z
    ∧ hasNextPage pg' = false.
Proof.
  intros Hids Hpage Hlimit. unfold deleteLogs; cbn [d_ids d_filters].
  rewrite Hids. cbv zeta.
  pose proof (deleteMany_leaves_none db (buildQuery (l_filters req)))
    as Hnone.
  assert (Hn : (deleteMany regexTest db (buildQuery (l_filters req))).1
               = length (find regexTest db (buildQuery (l_filters req))))
    by done.
  destruct (deleteMany regexTest db _) as [k m]. cbn [fst snd] in *.
  intros [= <- <-]. unfold getLogs.
  replace (default 1 (l_page req) <? 1)%Z with false
    by (symmetry; apply Z.ltb_ge; lia).
  replace (default 20 (l_limit req) <? 1)%Z with false
    by (symmetry; apply Z.ltb_ge; lia).
  cbn [orb]. eexists _, _, _. split; [reflexivity|].
  split; [cbn [totalCount]; unfold countDocuments; by rewrite Hn|].
  unfold countDocuments. rewrite Hnone.
  assert (Hsorted : ∀ field desc, sortDocs field desc [] = []).
  { intros field desc. apply Permutation_nil_r, sortDocs_perm. }
  rewrite Hsorted, drop_nil, take_nil. split; [reflexivity|].
  cbn [totalCount totalPages hasNextPage length].
  change (Z.of_nat 0) with 0%Z.
  assert (Hzero :
    Js.Math_ceil (inject_Z 0 / inject_Z (default 20%Z (l_limit req))) = 0%Z).
  { pose proof (ceil_div_bounds 0 (default 20%Z (l_limit req)) ltac:(lia)).
    nia. }
  rewrite Hzero. split; [done|]. split; [done|].
  apply Z.ltb_ge. lia.
Qed.

(** X22. The pages of a listing, read in order from page 1, are
    consecutive slices of the sorted matches: the first [n] pages hold
    the first [n * limit] of them, so together the pages up to the last
    one list every matching entry once, in sort order. *)
Theorem pages_cover_the_listing
    (db : gmap string t) (req : listing) (n : nat) :
  (1 ≤ default 20 (l_limit req))%Z →
  let sorted :=
    sortDocs (default "createdAt" (l_sortBy req))
      (bool_decide (default "desc" (l_sortOrder req) = "desc"))
      (find regexTest db (buildQuery (l_filters req))) in
  let page (p : nat) :=
    Pages.rows (getLogs regexTest sortDocs db
                  (Pages.atPage req (Z.of_nat p))) in
  concat (page <$> seq 1 n)
  = take (n * Z.to_nat (default 20%Z (l_limit req))) sorted
  ∧ ((countDocuments regexTest db (buildQuery (l_filters req))
      ≤ Z.of_nat n * default 20 (l_limit req))%Z →
     concat (page <$> seq 1 n) = sorted).
Proof.
  intros Hlimit sorted page.
  assert (Hpage : ∀ p, page (S p)
                       = take (Z.to_nat (default 20%Z (l_limit req)))
                              (drop (p * Z.to_nat (default 20%Z (l_limit req)))
                                    sorted)).
  { intros p. unfold page, Pages.rows, Pages.atPage, getLogs.
    cbn [l_page l_limit l_filters l_sortBy l_sortOrder].
    change (default 1%Z (Some (Z.of_nat (S p)))) with (Z.of_nat (S p)).
    replace (Z.of_nat (S p) <? 1)%Z with false
      by (symmetry; apply Z.ltb_ge; lia).
    replace (default 20 (l_limit req) <? 1)%Z with false
      by (symmetry; apply Z.ltb_ge; lia).
    cbn [orb]. fold sorted. f_equal. f_equal.
    replace (Z.of_nat (S p) - 1)%Z with (Z.of_nat p) by lia.
    rewrite Z2Nat.inj_mul by lia. by rewrite Nat2Z.id. }
  assert (Hall : concat (page <$> seq 1 n)
                 = take (n * Z.to_nat (default 20%Z (l_limit req))) sorted).
  { induction n as [|n IH]; [done|].
    rewrite seq_S, fmap_app, concat_app, IH. simpl.
    rewrite Hpage, app_nil_r, take_take_drop. f_equal. lia. }
  split; [exact Hall|]. intros Hcount. rewrite Hall.
  apply take_ge. unfold sorted.
  rewrite (Permutation_length (sortDocs_perm _ _ _)).
  unfold countDocuments in Hcount. nia.
Qed.

End Facts.

End AdminFacts.

(** ** Authentication in front of the routes *)

Module AuthFacts.

Import Auth.

Lemma prefix_nil (s : string) : String.prefix "" s = true.
Proof. by destruct s. Qed.

Lemma substring_all (s : string) : String.substring 0 (String.length s) s = s.
Proof. induction s as [|a s IH]; [done|]. simpl. by rewrite IH. Qed.

(** What follows ["Bearer "] is the token. *)
Lemma tokenOf_bearer (token : string) : tokenOf ("Bearer " +:+ token) = token.
Proof.
  unfold tokenOf. simpl. rewrite prefix_nil.
  rewrite Nat.sub_0_r. apply substring_all.
Qed.

Section Facts.

Variable verify : string → option user.

(** X23. The ["Bearer "] prefix is optional: a header that is the bare
    token is treated as the header with the prefix, for every token that
    is not empty and does not itself begin with ["Bearer "]. *)
Theorem protect_bearer_optional (token : string) :
  token ≠ "" → String.prefix "Bearer " token = false →
  protect verify (Some ("Bearer " +:+ token)) = protect verify (Some token)
  ∧ protect verify (Some token)
    = match verify token with
      | Some decoded => ok decoded
      | None => fail 401 "Invalid or expired token"
      end.
Proof.
  intros Hne Hbare. unfold protect.
  assert (Hsame : tokenOf token = token) by (unfold tokenOf; by rewrite Hbare).
  rewrite tokenOf_bearer, !Hsame.
  rewrite (bool_decide_eq_false_2 (token = "")) by done.
  rewrite (bool_decide_eq_false_2 ("Bearer " +:+ token = "")) by done.
  done.
Qed.

(** X24. A handler of the admin routes runs only for a header whose
    token verifies to a principal with role [admin]; every other request
    is answered 401 or 403 and the state is left as it was. *)
Theorem adminRoute_guard {A S : Type} (authHeader : option string)
    (handler : S → reply A * S) (s : S) :
  (∃ h u, authHeader = Some h ∧ verify (tokenOf h) = Some u
          ∧ role u = "admin"
          ∧ adminRoute verify authHeader handler s = handler s)
  ∨ (∃ code message,
       (code = 401 ∨ code = 403)%Z
       ∧ adminRoute verify authHeader handler s = (fail code message, s)).
Proof.
  unfold adminRoute, protect, adminOnly.
  destruct authHeader as [h|]; [|right; eauto 6].
  case_bool_decide; [right; eauto 6|].
  case_bool_decide; [right; eauto 6|].
  destruct (verify (tokenOf h)) as [u|] eqn:E; [|right; eauto 6].
  case_bool_decide as Hrole; simpl.
  - left. exists h, u. done.
  - right. eauto 6.
Qed.

(** X25. Behind [protect], no request writes to a task of another
    user: when the principal of the token is not the owner of the task,
    the update, the toggle, the progress write and the delete all answer
    with a failure and leave the collection as it was. *)
Theorem only_the_owner_writes
    (schemaValid : Task.t → bool) (trim : string → string)
    (authHeader : option string) (db : gmap string Task.t) id task
    (body : Task.putBody) (v : Js.value) :
  db !! id = Some task →
  (∀ u, protect verify authHeader = ok u → userId u ≠ Task.userId task) →
  (∃ code message,
     taskRoute verify authHeader
       (λ uid db, Task.put schemaValid trim db id uid body) db
     = (fail code message, db))
  ∧ (∃ code message,
       taskRoute verify authHeader
         (λ uid db, Task.patchStatus schemaValid db id uid) db
       = (fail code message, db))
  ∧ (∃ code message,
       taskRoute verify authHeader
         (λ uid db, Task.patchProgress schemaValid db id uid v) db
       = (fail code message, db))
  ∧ (∃ code message,
       taskRoute verify authHeader
         (λ uid db, TaskCrud.deleteTask db id uid) db
       = (fail code message, db)).
Proof.
  intros Hlook Hother. unfold taskRoute.
  destruct (protect verify authHeader) as [u|code message];
    [|repeat split; by eexists _, _].
  assert (Hforeign : ∀ x, db !! id = Some x → Task.userId x ≠ userId u).
  { intros x Hx Heq. rewrite Hlook in Hx. injection Hx as <-.
    by destruct (Hother u eq_refl). }
  apply TaskCrudFacts.findOne_None in Hforeign.
  unfold Task.put, Task.patchStatus, Task.patchProgress, TaskCrud.deleteTask.
  rewrite Hforeign.
  split; [by eexists _, _|]. split; [by eexists _, _|].
  split; [|by eexists _, _].
  destruct (Js.is_undefined v || _ || _); by eexists _, _.
Qed.

End Facts.

End AuthFacts.

(** ** The log page *)

Module LogPageFacts.

Import UserLogRoutes LogPage.

Lemma append_assoc (a b c : string) : (a +:+ b) +:+ c = a +:+ b +:+ c.
Proof.
  induction a as [|x a IH]; [done|].
  change (String x ((a +:+ b) +:+ c) = String x (a +:+ b +:+ c)).
  by rewrite IH.
Qed.

Lemma ends_in_m_not_na (s : string) : s +:+ "m" ≠ "N/A".
Proof.
  destruct s as [|a [|b [|c [|d s]]]]; simpl; done.
Qed.

(** X26. A duration is shown as "N/A" exactly when it is [null] or 0;
    from 60 minutes on the label is the whole hours followed by the
    minutes left, which are below 60 and add up to the duration. *)
Theorem formatDuration_label (minutes : option Z) :
  (formatDuration minutes = "N/A" ↔ minutes = None ∨ minutes = Some 0%Z)
  ∧ (∀ m, minutes = Some m → (60 ≤ m)%Z →
       ∃ h r : Z,
         formatDuration minutes = pretty h +:+ "h " +:+ pretty r +:+ "m"
         ∧ (m = 60 * h + r)%Z ∧ (1 ≤ h)%Z ∧ (0 ≤ r < 60)%Z).
Proof.
  split.
  - destruct minutes as [m|]; simpl; [|split; auto].
    destruct (Z.eqb_spec m 0) as [->|Hm]; [split; auto|].
    split; [|intros [[=]|[=]]; lia].
    destruct (m <? 60)%Z.
    + by intros ?%ends_in_m_not_na.
    + rewrite <- (append_assoc (pretty (m `div` 60)%Z) "h "),
                <- (append_assoc _ (pretty (m `rem` 60)%Z) "m").
      by intros ?%ends_in_m_not_na.
  - intros m -> Hm. exists (m / 60)%Z, (Z.rem m 60). simpl.
    destruct (Z.eqb_spec m 0); [lia|].
    destruct (Z.ltb_spec m 60); [lia|]. split; [done|].
    rewrite Z.rem_mod_nonneg by lia.
    pose proof (Z.div_mod m 60 ltac:(lia)).
    pose proof (Z.mod_pos_bound m 60 ltac:(lia)).
    assert (1 ≤ m `div` 60)%Z by (apply Z.div_le_lower_bound; lia).
    repeat split; lia.
Qed.

(** X27. Unticking a row removes its id from the selection and keeps
    the other ids; ticking a row that was not selected and unticking it
    again gives the selection back. *)
Theorem selection_untick (selected : list string) (logId : string) :
  (∀ x, x ∈ handleLogSelection selected logId false
        ↔ x ∈ selected ∧ x ≠ logId)
  ∧ (logId ∉ selected →
     handleLogSelection (handleLogSelection selected logId true) logId false
     = selected).
Proof.
  unfold handleLogSelection. split.
  - intros x. rewrite list_elem_of_filter. tauto.
  - intros Hnot. rewrite filter_app. simpl.
    rewrite filter_cons_False by (intros H; by apply H).
    rewrite filter_nil, app_nil_r.
    induction selected as [|y l IH]; [done|].
    apply not_elem_of_cons in Hnot as [Hne Hl].
    rewrite filter_cons_True by done. by rewrite IH.
Qed.

Section Facts.

Variable regexTest : string → string → bool.
Variable sortDocs :
  string → bool → list (string * UserLog.t) → list (string * UserLog.t).
Hypothesis sortDocs_perm : ∀ field desc l, sortDocs field desc l ≡ₚ l.

(** X28. "Showing a to b" agrees with the rows the server sent: for an
    answer of the listing whose page does not start beyond the last
    entry, [b - a + 1] is the number of rows of the page. *)
Theorem showing_matches_rows (db : gmap string UserLog.t) (req : listing)
    logs pg :
  getLogs regexTest sortDocs db req = Some (ok (logs, pg)) →
  ((currentPage pg - 1) * limit pg ≤ totalCount pg)%Z →
  ((showing pg).2 - (showing pg).1 + 1)%Z = Z.of_nat (length logs).
Proof.
  unfold getLogs.
  destruct (Z.ltb_spec (default 1%Z (l_page req)) 1); [done|].
  destruct (Z.ltb_spec (default 20%Z (l_limit req)) 1); [done|].
  cbn [orb]. intros [= <- <-]. unfold showing.
  cbn [currentPage limit totalCount fst snd].
  rewrite length_take, length_drop.
  rewrite (Permutation_length (sortDocs_perm _ _ _)).
  unfold countDocuments. intros Hstart.
  assert (0 ≤ (default 1 (l_page req) - 1) * default 20 (l_limit req))%Z
    by nia.
  lia.
Qed.

End Facts.

End LogPageFacts.

(** ** Worked requests for the routes together *)

Module Worked.

Import Instances Samples.


(** The summary of [userA], who has one incomplete task of medium
    priority; and the 500 where the call of [ObjectId] throws. *)
Lemma statsSummary_agrees_with_counts_witness :
  objectIdFunction userA = true
  ∧ (∃ s,
       TaskCrud.statsSummary regexTest objectIdFunction hexTasks userA = ok s
       ∧ TaskCrud.s_total s = 1
       ∧ TaskCrud.s_completed s = 0
       ∧ TaskCrud.s_incomplete s = 1
       ∧ TaskCrud.s_mediumPriority s = 1)
  ∧ TaskCrud.statsSummary regexTest (λ _, false) hexTasks userA
    = fail 500 "Failed to retrieve task statistics".
Proof.
  split; [reflexivity|]. split.
  - destruct (TaskCrudFacts.statsSummary_agrees_with_counts regexTest
                sameOrder objectIdFunction hexTasks userA
                (TaskCrud.mkListQuery None None None)) as [_ Hok].
    destruct (Hok eq_refl)
      as (s & l & Hrun & _ & Ht & Hc & Hi & _ & Hm & _).
    exists s. split; [exact Hrun|].
    split; [rewrite Ht; vm_compute; reflexivity|].
    split; [rewrite Hc; vm_compute; reflexivity|].
    split; [rewrite Hi; vm_compute; reflexivity|].
    rewrite Hm; vm_compute; reflexivity.
  - destruct (TaskCrudFacts.statsSummary_agrees_with_counts regexTest
                sameOrder (λ _, false) hexTasks userA
                (TaskCrud.mkListQuery None None None)) as [Hthrow _].
    exact (Hthrow eq_refl).
Defined.

(** The mean over a ledger with one closed session of 1 minute and one
    open session. *)
Lemma getStats_average_witness :
  ∃ st,
    UserLogAdmin.getStats (<["e1" := c1Closed]> twoDevices) 0 None None
    = ok st
    ∧ UserLogAdmin.averageSessionDuration st
      = Some (inject_Z 1 / inject_Z 1)%Q.
Proof.
  pose proof (AdminFacts.getStats_average (<["e1" := c1Closed]> twoDevices)
                0 None None) as H.
  cbv zeta in H. destruct H as (st & Hrun & _ & _ & _ & Hmean).
  destruct (Hmean ("e1", c1Closed) 1%Z) as (_ & Havg & _).
  - apply list_elem_of_filter. split; [reflexivity|].
    apply elem_of_map_to_list. reflexivity.
  - reflexivity.
  - lia.
  - exists st. split; [exact Hrun|]. rewrite Havg.
    vm_compute. reflexivity.
Defined.


(** [u1] deletes the own task and cannot read it afterwards. *)
Lemma deleteTask_removes_one_witness :
  Task.findOne twoOwners "t1" "u1" = Some (report Task.incomplete 40)
  ∧ TaskCrud.deleteTask twoOwners "t1" "u1"
    = (ok (report Task.incomplete 40), delete "t1" twoOwners)
  ∧ TaskCrud.getTask (delete "t1" twoOwners) "t1" "u1"
    = fail 404 "Task not found".
Proof.
  assert (Hfind : Task.findOne twoOwners "t1" "u1"
                  = Some (report Task.incomplete 40)) by reflexivity.
  destruct (TaskCrudFacts.deleteTask_removes_one twoOwners "t1" "u1"
              (report Task.incomplete 40) Hfind)
    as (Hdelete & _ & Hget & _).
  split; [exact Hfind|]. split; [exact Hdelete | exact Hget].
Defined.

(** A task is posted, read back and deleted again. *)
Lemma postTask_round_trip_witness :
  tasks Task.incomplete 40 !! nextTaskId (tasks Task.incomplete 40) = None
  ∧ specSchema callTask = true
  ∧ TaskCrud.postTask specSchema Task.incomplete trim nextTaskId
      (tasks Task.incomplete 40) "u1" callBody
    = (ok ("t2", callTask), <["t2" := callTask]> (tasks Task.incomplete 40))
  ∧ TaskCrud.getTask (<["t2" := callTask]> (tasks Task.incomplete 40))
      "t2" "u1" = ok callTask
  ∧ TaskCrud.deleteTask (<["t2" := callTask]> (tasks Task.incomplete 40))
      "t2" "u1" = (ok callTask, tasks Task.incomplete 40).
Proof.
  assert (Hfresh : tasks Task.incomplete 40
                   !! nextTaskId (tasks Task.incomplete 40) = None)
    by reflexivity.
  assert (Hvalid : specSchema callTask = true) by reflexivity.
  destruct (TaskCrudFacts.postTask_round_trip specSchema Task.incomplete
              trim nextTaskId (tasks Task.incomplete 40) "u1" callBody
              "  Call  " "Call the client" 0%Q
              eq_refl ltac:(done) eq_refl ltac:(done) eq_refl Hfresh Hvalid)
    as (Hpost & Hget & _ & Hdelete).
  split; [exact Hfresh|]. split; [exact Hvalid|].
  split; [exact Hpost|]. split; [exact Hget | exact Hdelete].
Defined.

(** The listing of [u1] does not show the task of [u2]. *)
Lemma getTasks_own_tasks_witness :
  (∀ l, sameOrder l ≡ₚ l)
  ∧ ∃ l,
      TaskCrud.getTasks regexTest sameOrder twoOwners "u1"
        (TaskCrud.mkListQuery None None None) = ok l
      ∧ TaskCrud.tl_total l = 1
      ∧ (∀ id task, (id, task) ∈ TaskCrud.tl_data l →
                    twoOwners !! id = Some task ∧ Task.userId task = "u1").
Proof.
  assert (Hperm : ∀ l, sameOrder l ≡ₚ l) by done.
  destruct (TaskCrudFacts.getTasks_own_tasks regexTest sameOrder Hperm
              twoOwners "u1" (TaskCrud.mkListQuery None None None))
    as (l & Hrun & Hown & Htotal & _).
  split; [exact Hperm|]. exists l.
  split; [exact Hrun|]. split; [|exact Hown].
  injection Hrun as <-. reflexivity.
Defined.

(** Progress 100 on the task at 40. *)
Lemma patchProgress_postcondition_witness :
  Task.patchProgress specSchema (tasks Task.incomplete 40) "t1" "u1"
    (Js.number 100)
  = (ok (report Task.complete 100), tasks Task.complete 100)
  ∧ (Task.progress (report Task.complete 100) <= 100)%Q
  ∧ ((Task.progress (report Task.complete 100) == 100)%Q →
     Task.status (report Task.complete 100) = Task.complete)
  ∧ tasks Task.complete 100 !! "t1" = Some (report Task.complete 100).
Proof.
  assert (Hrun : Task.patchProgress specSchema (tasks Task.incomplete 40)
                   "t1" "u1" (Js.number 100)
                 = (ok (report Task.complete 100), tasks Task.complete 100))
    by (vm_compute; reflexivity).
  destruct (TaskCrudFacts.patchProgress_postcondition specSchema _ _ _ _ _ _
              Hrun) as (_ & Hhi & Hfull & _ & _ & Hlook).
  split; [exact Hrun|]. split; [exact Hhi|].
  split; [exact Hfull | exact Hlook].
Defined.

(** Progress 100 sent a second time. *)
Lemma patchProgress_idempotent_witness :
  Task.patchProgress specSchema (tasks Task.incomplete 40) "t1" "u1"
    (Js.number 100)
  = (ok (report Task.complete 100), tasks Task.complete 100)
  ∧ Task.patchProgress specSchema (tasks Task.complete 100) "t1" "u1"
      (Js.number 100)
    = (ok (report Task.complete 100), tasks Task.complete 100).
Proof.
  assert (Hrun : Task.patchProgress specSchema (tasks Task.incomplete 40)
                   "t1" "u1" (Js.number 100)
                 = (ok (report Task.complete 100), tasks Task.complete 100))
    by (vm_compute; reflexivity).
  split; [exact Hrun|].
  exact (TaskCrudFacts.patchProgress_idempotent specSchema _ _ _ _ _ _ Hrun).
Defined.

(** [PUT { progress: 150 }] stores 100 for the same owner. *)
Lemma put_keeps_owner_and_range_witness :
  Task.put specSchema trim (tasks Task.incomplete 40) "t1" "u1"
    (onlyProgress 150)
  = (ok (report Task.incomplete 100), tasks Task.incomplete 100)
  ∧ Task.userId (report Task.incomplete 100) = "u1"
  ∧ (Task.progress (report Task.incomplete 100) <= 100)%Q.
Proof.
  assert (Hrun : Task.put specSchema trim (tasks Task.incomplete 40)
                   "t1" "u1" (onlyProgress 150)
                 = (ok (report Task.incomplete 100),
                    tasks Task.incomplete 100))
    by (vm_compute; reflexivity).
  destruct (TaskCrudFacts.put_keeps_owner_and_range specSchema trim
              _ _ _ _ _ _ Hrun) as (Howner & _ & _ & Hrange).
  split; [exact Hrun|]. split; [exact Howner|].
  by apply Hrange.
Defined.

(** The ledger of [twoDevices] after the logout of [c1]. *)
Lemma terminal_entries_are_final_witness :
  <["e1" := c1Closed]> twoDevices !! "e1" = Some c1Closed
  ∧ UserLog.status c1Closed ≠ UserLog.active
  ∧ (UserLog.createLogoutLog (<["e1" := c1Closed]> twoDevices)
       99000 99001 "u1" "c1").2 !! "e1" = Some c1Closed
  ∧ (UserLog.markTokenExpired (<["e1" := c1Closed]> twoDevices)
       99000 "c1").2 !! "e1" = Some c1Closed.
Proof.
  assert (Hlook : <["e1" := c1Closed]> twoDevices !! "e1" = Some c1Closed)
    by reflexivity.
  assert (Hterminal : UserLog.status c1Closed ≠ UserLog.active) by done.
  destruct (LedgerLifeFacts.terminal_entries_are_final
              (<["e1" := c1Closed]> twoDevices) "e1" c1Closed
              99000 99001 "u1" "c1" Hlook Hterminal) as [Hlogout Hexpire].
  split; [exact Hlook|]. split; [exact Hterminal|].
  split; [exact Hlogout | exact Hexpire].
Defined.

Lemma twoDevices_without_c3 :
  ∀ i e, twoDevices !! i = Some e → UserLog.jwtTokenId e ≠ Some "c3".
Proof.
  intros i e Hlook. unfold twoDevices in Hlook.
  apply lookup_insert_Some in Hlook as [[_ <-]|[_ Hlook]]; [done|].
  apply lookup_singleton_Some in Hlook as [_ <-]. done.
Qed.

(** A third login, under token [c3]. *)
Lemma createLoginLog_outcome_witness :
  twoDevices !! nextLogId twoDevices = None
  ∧ LedgerLogin.createLoginLog trim nextLogId twoDevices 3000 3000 3001
      alice None None (Some "c3")
    = (LedgerLogin.returned ("e3", aliceLogin), <["e3" := aliceLogin]> twoDevices)
  ∧ size (<["e3" := aliceLogin]> twoDevices) = S (size twoDevices)
  ∧ UserLog.status aliceLogin = UserLog.active.
Proof.
  assert (Hfresh : twoDevices !! nextLogId twoDevices = None) by reflexivity.
  assert (Hrun : LedgerLogin.createLoginLog trim nextLogId twoDevices
                   3000 3000 3001 alice None None (Some "c3")
                 = (LedgerLogin.returned ("e3", aliceLogin),
                    <["e3" := aliceLogin]> twoDevices))
    by (vm_compute; reflexivity).
  pose proof (LedgerLifeFacts.createLoginLog_outcome trim nextLogId
                twoDevices 3000 3000 3001 alice None None (Some "c3") Hfresh)
    as Hout.
  rewrite Hrun in Hout.
  destruct Hout as (_ & _ & Hsize & _ & _ & Hactive & _).
  split; [exact Hfresh|]. split; [exact Hrun|].
  split; [exact Hsize | exact Hactive].
Defined.

(** The login of [alice] at 3000 and the logout at 93000: 90 seconds,
    stamped 2 minutes. *)
Lemma login_then_logout_witness :
  twoDevices !! nextLogId twoDevices = None
  ∧ UserLog.createLogoutLog (<["e3" := aliceLogin]> twoDevices)
      93000 93001 "u1" "c3"
    = (Some (UserLog.close aliceLogin 93000 2 93001),
       <["e3" := UserLog.close aliceLogin 93000 2 93001]>
         (<["e3" := aliceLogin]> twoDevices)).
Proof.
  assert (Hfresh : twoDevices !! nextLogId twoDevices = None) by reflexivity.
  assert (Hrun : LedgerLogin.createLoginLog trim nextLogId twoDevices
                   3000 3000 3001 alice None None (Some "c3")
                 = (LedgerLogin.returned ("e3", aliceLogin),
                    <["e3" := aliceLogin]> twoDevices))
    by (vm_compute; reflexivity).
  destruct (LedgerLifeFacts.login_then_logout trim nextLogId twoDevices _
              3000 3000 3001 alice None None "c3" "e3" aliceLogin
              93000 93001 Hfresh twoDevices_without_c3 Hrun)
    as (Hlogout & _ & _).
  split; [exact Hfresh | exact Hlogout].
Defined.

(** Statistics from time 2 on, with a clock bound of 100: the recent
    activity is the three entries of the range. *)
Lemma getStats_recent_with_dates_witness :
  (is_Some (Some 2%Z) ∨ is_Some (@None Z))
  ∧ ∃ st,
      UserLogAdmin.getStats (ledgerOf 5) 100 (Some 2%Z) None = ok st
      ∧ UserLogAdmin.totalLogs st = 3
      ∧ UserLogAdmin.recentActivity st = UserLogAdmin.totalLogs st.
Proof.
  assert (Hdates : is_Some (Some 2%Z) ∨ is_Some (@None Z)) by (left; eauto).
  destruct (AdminFacts.getStats_recent_with_dates (ledgerOf 5) 100
              (Some 2%Z) None Hdates) as (st & Hrun & Hrecent).
  split; [exact Hdates|]. exists st. split; [exact Hrun|].
  split; [|exact Hrecent].
  vm_compute in Hrun. injection Hrun as <-. reflexivity.
Defined.

(** The statistics before and after the logout of [c1]. *)
Lemma logout_keeps_stats_counts_witness :
  UserLog.createLogoutLog twoDevices 61000 61001 "u1" "c1"
  = (Some c1Closed, <["e1" := c1Closed]> twoDevices)
  ∧ ∃ st st',
      UserLogAdmin.getStats twoDevices 0 None None = ok st
      ∧ UserLogAdmin.getStats (<["e1" := c1Closed]> twoDevices) 0 None None
        = ok st'
      ∧ UserLogAdmin.totalLogins st' = UserLogAdmin.totalLogins st
      ∧ UserLogAdmin.totalLogouts st' = UserLogAdmin.totalLogouts st.
Proof.
  assert (Hrun : UserLog.createLogoutLog twoDevices 61000 61001 "u1" "c1"
                 = (Some c1Closed, <["e1" := c1Closed]> twoDevices))
    by (vm_compute; reflexivity).
  destruct (AdminFacts.logout_keeps_stats_counts twoDevices _ 61000 61001
              "u1" "c1" c1Closed 0 None None Hrun)
    as (st & st' & Hst & Hst' & _ & Hlogins & Hlogouts & _).
  split; [exact Hrun|]. exists st, st'.
  split; [exact Hst|]. split; [exact Hst'|].
  split; [exact Hlogins | exact Hlogouts].
Defined.

(** The bulk delete of entry ["1"], twice. *)
Lemma deleteLogs_twice_witness :
  UserLogRoutes.deleteLogs regexTest (ledgerOf 3)
    (UserLogRoutes.mkDelete (Some ["1"]) None)
  = (ok 1, delete "1" (ledgerOf 3))
  ∧ UserLogRoutes.deleteLogs regexTest (delete "1" (ledgerOf 3))
      (UserLogRoutes.mkDelete (Some ["1"]) None)
    = (ok 0, delete "1" (ledgerOf 3)).
Proof.
  assert (Hrun : UserLogRoutes.deleteLogs regexTest (ledgerOf 3)
                   (UserLogRoutes.mkDelete (Some ["1"]) None)
                 = (ok 1, delete "1" (ledgerOf 3)))
    by (vm_compute; reflexivity).
  split; [exact Hrun|].
  exact (AdminFacts.deleteLogs_twice regexTest _ _ _ _ Hrun).
Defined.

(** [{ filters: { action: "login" } }] on five logins. *)
Lemma deleteLogs_by_filters_empties_listing_witness :
  UserLogRoutes.idsGiven None = false
  ∧ UserLogRoutes.deleteLogs regexTest (ledgerOf 5)
      (UserLogRoutes.mkDelete None
         (Some (UserLogRoutes.l_filters onlyLogins)))
    = (ok 5, ∅)
  ∧ ∃ logs pg pg',
      UserLogRoutes.getLogs regexTest sortDocs (ledgerOf 5) onlyLogins
      = Some (ok (logs, pg))
      ∧ UserLogRoutes.totalCount pg = 5%Z
      ∧ UserLogRoutes.getLogs regexTest sortDocs ∅ onlyLogins
        = Some (ok ([], pg'))
      ∧ UserLogRoutes.totalCount pg' = 0%Z.
Proof.
  assert (Hrun : UserLogRoutes.deleteLogs regexTest (ledgerOf 5)
                   (UserLogRoutes.mkDelete None
                      (Some (UserLogRoutes.l_filters onlyLogins)))
                 = (ok 5, ∅))
    by (vm_compute; reflexivity).
  destruct (AdminFacts.deleteLogs_by_filters_empties_listing regexTest
              sortDocs RouteFacts.sortDocs_perm (ledgerOf 5) ∅ None
              onlyLogins 5 eq_refl ltac:(simpl; lia) ltac:(simpl; lia) Hrun)
    as (logs & pg & pg' & Hbefore & Hcount & Hafter & Hzero & _).
  split; [reflexivity|]. split; [exact Hrun|]. exists logs, pg, pg'.
  split; [exact Hbefore|]. split; [exact Hcount|].
  split; [exact Hafter | exact Hzero].
Defined.

(** The three pages of 45 entries by 20, one after the other, are the
    whole sorted ledger. *)
Lemma pages_cover_the_listing_witness :
  (1 ≤ 20)%Z
  ∧ length
      (concat
         ((λ p : nat,
             Pages.rows
               (UserLogRoutes.getLogs regexTest sortDocs (ledgerOf 45)
                  (Pages.atPage page3 (Z.of_nat p)))) <$> seq 1 3))
    = 45.
Proof.
  split; [lia|].
  destruct (AdminFacts.pages_cover_the_listing regexTest sortDocs
              RouteFacts.sortDocs_perm (ledgerOf 45) page3 3
              ltac:(simpl; lia)) as [_ Hall].
  rewrite Hall by (vm_compute; discriminate).
  vm_compute. reflexivity.
Defined.

(** The token of [u1], with and without the prefix. *)
Lemma protect_bearer_optional_witness :
  "tok-u1" ≠ "" ∧ String.prefix "Bearer " "tok-u1" = false
  ∧ Auth.protect verifyToken (Some "Bearer tok-u1")
    = Auth.protect verifyToken (Some "tok-u1")
  ∧ Auth.protect verifyToken (Some "tok-u1") = ok (Auth.mkUser "u1" "user").
Proof.
  destruct (AuthFacts.protect_bearer_optional verifyToken "tok-u1"
              ltac:(done) eq_refl) as [Hsame Hbare].
  split; [done|]. split; [reflexivity|]. split; [exact Hsame | exact Hbare].
Defined.

(** [u1], authenticated, tries to toggle and to delete the task of
    [u2]. *)
Lemma only_the_owner_writes_witness :
  twoOwners !! "t2" = Some planOfU2
  ∧ Auth.protect verifyToken (Some "Bearer tok-u1")
    = ok (Auth.mkUser "u1" "user")
  ∧ (∃ code message,
       Auth.taskRoute verifyToken (Some "Bearer tok-u1")
         (λ uid db, Task.patchStatus specSchema db "t2" uid) twoOwners
       = (fail code message, twoOwners))
  ∧ (∃ code message,
       Auth.taskRoute verifyToken (Some "Bearer tok-u1")
         (λ uid db, TaskCrud.deleteTask db "t2" uid) twoOwners
       = (fail code message, twoOwners)).
Proof.
  assert (Hlook : twoOwners !! "t2" = Some planOfU2) by reflexivity.
  assert (Hother : ∀ u, Auth.protect verifyToken (Some "Bearer tok-u1") = ok u →
                        Auth.userId u ≠ Task.userId planOfU2).
  { intros u Hu. vm_compute in Hu. injection Hu as <-. done. }
  destruct (AuthFacts.only_the_owner_writes verifyToken specSchema trim
              (Some "Bearer tok-u1") twoOwners "t2" planOfU2
              (onlyProgress 10) (Js.number 10) Hlook Hother)
    as (_ & Hstatus & _ & Hdelete).
  split; [exact Hlook|]. split; [reflexivity|].
  split; [exact Hstatus | exact Hdelete].
Defined.

(** Page 3 of 45 by 20 is shown as "41 to 45" and has five rows. *)
Lemma showing_matches_rows_witness :
  ∃ logs pg,
    UserLogRoutes.getLogs regexTest sortDocs (ledgerOf 45) page3
    = Some (ok (logs, pg))
    ∧ LogPage.showing pg = (41, 45)%Z
    ∧ ((LogPage.showing pg).2 - (LogPage.showing pg).1 + 1)%Z
      = Z.of_nat (length logs).
Proof.
  destruct (UserLogRoutes.getLogs regexTest sortDocs (ledgerOf 45) page3)
    as [[[logs pg]|]|] eqn:Hrun; try (vm_compute in Hrun; discriminate).
  exists logs, pg. split; [reflexivity|].
  assert (Hshow : LogPage.showing pg = (41, 45)%Z).
  { vm_compute in Hrun. injection Hrun as _ <-. reflexivity. }
  split; [exact Hshow|].
  apply (LogPageFacts.showing_matches_rows regexTest sortDocs
           RouteFacts.sortDocs_perm (ledgerOf 45) page3 logs pg Hrun).
  vm_compute in Hrun. injection Hrun as _ <-. vm_compute. discriminate.
Defined.

End Worked.
